(** * Docstring analyzer: a shallow embedding of [backend/analyzer.py]

    The analyzer walks the syntax tree of one Python file, records classes,
    functions and methods with a parameter model and a baseline docstring,
    counts comments from the token stream, and aggregates a report.

    The three standard-library services the analyzer calls ([ast.parse],
    [ast.unparse], [tokenize.generate_tokens]) are variables of a section;
    the analyzer's own code is embedded as functions over them.  A Python
    [str] is a [string] whose characters are code points below 256. *)

From Stdlib Require Import ZArith String Ascii List Lia Bool.
From Stdlib Require Import QArith Qround Qpower Lqa.
From stdpp Require Import base list.
Import ListNotations.

Local Open Scope string_scope.
Local Open Scope list_scope.
Local Open Scope nat_scope.

(** ** Python string operations used by the analyzer *)

Module Py.

Definition code (c : ascii) : nat := nat_of_ascii c.

(** [str.isspace] on one code point below 256. *)
Definition isspace (c : ascii) : bool :=
  let n := code c in
  ((9 <=? n) && (n <=? 13)) || ((28 <=? n) && (n <=? 32))
  || (n =? 133) || (n =? 160).

(** [str.isnumeric] on one code point below 256: the decimal digits, the
    superscripts 1 to 3 and the three vulgar fractions. *)
Definition isnumeric_char (c : ascii) : bool :=
  let n := code c in
  ((48 <=? n) && (n <=? 57)) || (n =? 178) || (n =? 179) || (n =? 185)
  || ((188 <=? n) && (n <=? 190)).

(** [s.isnumeric()]: every character numeric and at least one character. *)
Fixpoint all_numeric (s : string) : bool :=
  match s with
  | EmptyString => true
  | String c r => isnumeric_char c && all_numeric r
  end.

Definition isnumeric (s : string) : bool :=
  match s with
  | EmptyString => false
  | _ => all_numeric s
  end.

(** Truth value of a [str]: non-empty. *)
Definition truthy (s : string) : bool :=
  match s with EmptyString => false | _ => true end.

Fixpoint lstrip (s : string) : string :=
  match s with
  | EmptyString => EmptyString
  | String c r => if isspace c then lstrip r else s
  end.

Fixpoint rstrip (s : string) : string :=
  match s with
  | EmptyString => EmptyString
  | String c r =>
      match rstrip r with
      | EmptyString => if isspace c then EmptyString else String c EmptyString
      | r' => String c r'
      end
  end.

Definition strip (s : string) : string := lstrip (rstrip s).

Definition startswith (s p : string) : bool := String.prefix p s.

Definition endswith (s p : string) : bool :=
  (String.length p <=? String.length s)%nat
  && String.eqb (substring (String.length s - String.length p)
                           (String.length p) s) p.

(** [s[3:-3]]: empty as soon as the string has at most six characters. *)
Definition slice_3_m3 (s : string) : string :=
  substring 3 (String.length s - 6) s.

(** [s[n:]]. *)
Fixpoint drop_chars (n : nat) (s : string) : string :=
  match n, s with
  | O, _ => s
  | S _, EmptyString => EmptyString
  | S n', String _ r => drop_chars n' r
  end.

Definition newline : ascii := ascii_of_nat 10.
Definition carriage_return : ascii := ascii_of_nat 13.
Definition tab : ascii := ascii_of_nat 9.
Definition nl : string := String newline EmptyString.

(** [s.split('\n')]: always at least one piece. *)
Fixpoint split_nl (s : string) : list string :=
  match s with
  | EmptyString => [EmptyString]
  | String c r =>
      if Ascii.eqb c newline then EmptyString :: split_nl r
      else match split_nl r with
           | h :: t => String c h :: t
           | [] => [String c EmptyString]
           end
  end.

(** ['\n'.join(lines)]. *)
Fixpoint join_nl (lines : list string) : string :=
  match lines with
  | [] => EmptyString
  | [l] => l
  | l :: rest => (l ++ nl ++ join_nl rest)%string
  end.

(** Line boundaries of [str.splitlines] below code point 256. *)
Definition is_linebreak (c : ascii) : bool :=
  let n := code c in
  ((10 <=? n) && (n <=? 13)) || ((28 <=? n) && (n <=? 30)) || (n =? 133).

(** [s.splitlines()]: the pending line [cur] is kept in reverse; a final
    line is produced only when it is not empty; ["\r\n"] is one break. *)
Fixpoint splitlines_from (cur : list ascii) (s : string) : list string :=
  match s with
  | EmptyString =>
      match cur with
      | [] => []
      | _ => [string_of_list_ascii (rev cur)]
      end
  | String c r =>
      if is_linebreak c then
        string_of_list_ascii (rev cur) ::
          (if Ascii.eqb c carriage_return then
             match r with
             | String c2 r2 =>
                 if Ascii.eqb c2 newline then splitlines_from [] r2
                 else splitlines_from [] r
             | EmptyString => splitlines_from [] r
             end
           else splitlines_from [] r)
      else splitlines_from (c :: cur) r
  end.

Definition splitlines (s : string) : list string := splitlines_from [] s.

Fixpoint spaces (n : nat) : string :=
  match n with O => EmptyString | S n' => String " " (spaces n') end.

(** [s.expandtabs()] with the default tab size 8; [col] is the current
    column, reset by a line feed or a carriage return. *)
Fixpoint expandtabs_from (col : nat) (s : string) : string :=
  match s with
  | EmptyString => EmptyString
  | String c r =>
      if Ascii.eqb c tab then
        let incr := 8 - col mod 8 in
        (spaces incr ++ expandtabs_from (col + incr) r)%string
      else if Ascii.eqb c newline || Ascii.eqb c carriage_return then
        String c (expandtabs_from 0 r)
      else String c (expandtabs_from (S col) r)
  end.

Definition expandtabs (s : string) : string := expandtabs_from 0 s.

(** [inspect.cleandoc]. *)

(** Minimum indentation of the non-blank lines; [None] is [sys.maxsize]. *)
Fixpoint margin_of (lines : list string) (margin : option nat) : option nat :=
  match lines with
  | [] => margin
  | line :: rest =>
      let content := String.length (lstrip line) in
      if (content =? 0)%nat then margin_of rest margin
      else
        let indent := String.length line - content in
        margin_of rest (Some (match margin with
                              | None => indent
                              | Some m => Nat.min m indent
                              end))
  end.

Fixpoint drop_leading_empty (lines : list string) : list string :=
  match lines with
  | EmptyString :: rest => drop_leading_empty rest
  | _ => lines
  end.

Definition drop_trailing_empty (lines : list string) : list string :=
  rev (drop_leading_empty (rev lines)).

Definition cleandoc (doc : string) : string :=
  match split_nl (expandtabs doc) with
  | [] => EmptyString
  | first :: rest =>
      let margin := margin_of rest None in
      let first' := lstrip first in
      let rest' := match margin with
                   | None => rest
                   | Some m => map (drop_chars m) rest
                   end in
      join_nl (drop_leading_empty (drop_trailing_empty (first' :: rest')))
  end.

End Py.

(** ** Results of code that may raise *)

Inductive exn : Set :=
| SyntaxError    (* raised by [ast.parse] *)
| IndexError     (* list index out of range *)
| UnparseError.  (* anything [ast.unparse] raises *)

Inductive result (A : Type) : Type :=
| Ok (a : A)
| Raise (e : exn).

Arguments Ok {A} a.
Arguments Raise {A} e.

(** [result] is an error monad; [x ← r; k] runs [k] unless [r] raised. *)
#[global] Instance result_ret : MRet result := fun A a => Ok a.

#[global] Instance result_bind : MBind result := fun A B k r =>
  match r with
  | Ok a => k a
  | Raise e => Raise e
  end.

(** ** The syntax tree, as far as the analyzer looks at it *)

Module Ast.

Inductive constant : Set :=
| CStr (s : string)           (* a [str] value *)
| COther (shown : string).    (* any other value, with its [str()] *)

Inductive expr : Set :=
| Name (id : string)
| Subscript (value slice : expr)
| Attribute (value : expr) (attr : string)
| Constant (value : constant)
| OtherExpr.

Record arg : Set := mk_arg { arg_name : string; annotation : option expr }.

Record arguments : Set := mk_arguments {
  posonlyargs : list arg;
  args : list arg;
  vararg : option arg;
  kwonlyargs : list arg;
  kw_defaults : list (option expr);
  kwarg : option arg;
  defaults : list expr
}.

(** Statements.  [OtherStmt] stands for every statement kind the analyzer
    has no visitor for (if, for, while, with, try, match, assignments,
    pass, ...), with the statements of its blocks in field order. *)
Unset Elimination Schemes.
Inductive stmt : Set :=
| FunctionDef (name : string) (a : arguments) (body : list stmt)
              (returns : option expr)
| AsyncFunctionDef (name : string) (a : arguments) (body : list stmt)
                   (returns : option expr)
| ClassDef (name : string) (body : list stmt)
| Expr (value : expr)
| OtherStmt (children : list stmt).
Set Elimination Schemes.

Definition pass : stmt := OtherStmt [].

(** [any(isinstance(n, ast.ClassDef) for n in ast.walk(node))]: the node
    itself or one of its descendants is a class definition. *)
Fixpoint walk_has_ClassDef (node : stmt) : bool :=
  match node with
  | ClassDef _ _ => true
  | FunctionDef _ _ body _ => existsb walk_has_ClassDef body
  | AsyncFunctionDef _ _ body _ => existsb walk_has_ClassDef body
  | Expr _ => false
  | OtherStmt children => existsb walk_has_ClassDef children
  end.

(** [ast.get_docstring(node)] on the body of a function definition. *)
Definition get_docstring (body : list stmt) : option string :=
  match body with
  | Expr (Constant (CStr text)) :: _ => Some (Py.cleandoc text)
  | _ => None
  end.

End Ast.

Import Ast.

(** ** Records built by the analyzer *)

(** One entry of [args_info].  The keys ['vararg'] and ['kwargs'] exist only
    in the entries of the variadic parameters. *)
Record ArgInfo : Set := mk_ArgInfo {
  ai_name : string;
  ai_type : string;
  ai_default : bool;
  ai_vararg : option bool;
  ai_kwargs : option bool
}.

(** [arg.get(key, False)]. *)
Definition get_flag (v : option bool) : bool :=
  match v with Some b => b | None => false end.

Definition with_default (b : bool) (a : ArgInfo) : ArgInfo :=
  mk_ArgInfo (ai_name a) (ai_type a) b (ai_vararg a) (ai_kwargs a).

Record FuncInfo : Set := mk_FuncInfo {
  fi_name : string;
  fi_class_name : option string;
  fi_has_docstring : bool;
  fi_docstring : option string;
  fi_args : list ArgInfo;
  fi_return_type : option string;
  fi_baseline_docstring : string
}.

Record ASTAnalyzer : Set := mk_ASTAnalyzer {
  classes : list string;
  functions : list string;
  methods : list string;
  function_details : list FuncInfo;
  method_details : list FuncInfo;
  functions_with_docstrings : nat;
  functions_without_docstrings : nat;
  methods_with_docstrings : nat;
  methods_without_docstrings : nat
}.

(** [ASTAnalyzer.__init__]. *)
Definition ASTAnalyzer_init : ASTAnalyzer :=
  mk_ASTAnalyzer [] [] [] [] [] 0 0 0 0.

(** ** [ASTAnalyzer] *)

Section Analyzer.

(** [hasattr(ast, 'unparse')] and [ast.unparse]; [Raise] stands for any
    exception it may raise. *)
Variable has_unparse : bool.
Variable unparse : expr -> result string.

(** [ASTAnalyzer._annotation_to_string]. *)
Fixpoint _annotation_to_string (annotation : expr) : string :=
  match annotation with
  | Name id => id
  | Subscript value slice =>
      (_annotation_to_string value ++ "[" ++ _annotation_to_string slice ++ "]")%string
  | Attribute value attr => (_annotation_to_string value ++ "." ++ attr)%string
  | Constant (CStr s) => s
  | Constant (COther shown) => shown
  | OtherExpr => "Any"
  end.

(** The [try]/[except] around the rendering of one annotation. *)
Definition annotation_text (annotation : expr) : string :=
  match (if has_unparse then unparse annotation
         else Ok (_annotation_to_string annotation)) with
  | Ok s => s
  | Raise _ => "Any"
  end.

(** [arg_type or 'Any'], [arg_type] being [None] without an annotation. *)
Definition arg_type_or_Any (a : arg) : string :=
  match annotation a with
  | None => "Any"
  | Some e => let t := annotation_text e in if Py.truthy t then t else "Any"
  end.

Definition positional_entry (a : arg) : ArgInfo :=
  mk_ArgInfo (arg_name a) (arg_type_or_Any a) false None None.

Definition kwonly_entry (a : arg) : ArgInfo :=
  mk_ArgInfo (arg_name a) (arg_type_or_Any a) true None None.

Definition vararg_entry (a : arg) : ArgInfo :=
  mk_ArgInfo (arg_name a) "Any" false (Some true) None.

Definition kwarg_entry (a : arg) : ArgInfo :=
  mk_ArgInfo (arg_name a) "Any" false None (Some true).

(** [for arg in xs: args_info.append(entry(arg))]. *)
Definition append_entries (entry : arg -> ArgInfo) (xs : list arg)
           (args_info : list ArgInfo) : list ArgInfo :=
  fold_left (fun acc a => acc ++ [entry a]) xs args_info.

Definition append_optional (entry : arg -> ArgInfo) (x : option arg)
           (args_info : list ArgInfo) : list ArgInfo :=
  match x with
  | Some a => args_info ++ [entry a]
  | None => args_info
  end.

(** The four passes, lines 39 to 85. *)
Definition collect_args (a : arguments) : list ArgInfo :=
  let args_info := [] in
  let args_info := append_entries positional_entry (args a) args_info in
  let args_info := append_entries kwonly_entry (kwonlyargs a) args_info in
  let args_info := append_optional vararg_entry (vararg a) args_info in
  append_optional kwarg_entry (kwarg a) args_info.

(** [if i < len(args_info): args_info[i]['default'] = True].  A negative
    index counts from the end of the list and raises below [-len]. *)
Definition mark_default (i : Z) (args_info : list ArgInfo)
  : result (list ArgInfo) :=
  let n := Z.of_nat (length args_info) in
  if (i <? n)%Z then
    let j := if (i <? 0)%Z then (i + n)%Z else i in
    if (j <? 0)%Z then Raise IndexError
    else Ok (alter (with_default true) (Z.to_nat j) args_info)
  else Ok args_info.

(** [for i, default in enumerate(defaults, start=i): ...]. *)
Fixpoint sweep_defaults (i : Z) (ds : list expr) (args_info : list ArgInfo)
  : result (list ArgInfo) :=
  match ds with
  | [] => Ok args_info
  | _ :: ds' =>
      args_info' ← mark_default i args_info;
      sweep_defaults (i + 1)%Z ds' args_info'
  end.

Definition apply_defaults (a : arguments) (args_info : list ArgInfo)
  : result (list ArgInfo) :=
  match defaults a with
  | [] => Ok args_info
  | ds =>
      sweep_defaults (Z.of_nat (length (args a)) - Z.of_nat (length ds))%Z
                     ds args_info
  end.

(** One line of the ["Args:"] section. *)
Definition arg_line (arg : ArgInfo) : string :=
  let arg_name := ai_name arg in
  let arg_type := ai_type arg in
  let is_kwargs := get_flag (ai_kwargs arg) in
  let is_vararg := get_flag (ai_vararg arg) in
  if is_vararg then
    ("    *" ++ arg_name ++ " (" ++ arg_type ++ "): Variable positional arguments")%string
  else if is_kwargs then
    ("    **" ++ arg_name ++ " (" ++ arg_type ++ "): Variable keyword arguments")%string
  else
    ("    " ++ arg_name ++ " (" ++ arg_type ++ "): Description of " ++ arg_name)%string.

(** [ASTAnalyzer._generate_baseline_docstring]; [lines] grows by appends. *)
Definition _generate_baseline_docstring (func_name : string)
           (args : list ArgInfo) (class_name : option string) : string :=
  let lines := [] in
  let lines := lines ++ [func_name] in
  let lines :=
    match args with
    | [] => lines
    | _ =>
        let lines := lines ++ [EmptyString] in
        let lines := lines ++ ["Args:"%string] in
        fold_left (fun lines arg => lines ++ [arg_line arg]) args lines
    end in
  let lines := lines ++ [EmptyString] in
  let lines := lines ++ ["Returns:"%string] in
  let lines := lines ++ ["    Any: Description of return value"%string] in
  Py.join_nl lines.

(** [ast.unparse(node.returns) if node.returns and hasattr(ast, 'unparse')
    else None]; not inside any [try]. *)
Definition return_type_of (returns : option expr) : result (option string) :=
  match returns with
  | Some e => if has_unparse then (s ← unparse e; Ok (Some s)) else Ok None
  | None => Ok None
  end.

(** [ASTAnalyzer._extract_function_info] on the fields of the node. *)
Definition _extract_function_info (name : string) (a : arguments)
           (body : list stmt) (returns : option expr)
           (class_name : option string) : result FuncInfo :=
  let docstring := get_docstring body in
  let has_docstring :=
    match docstring with
    | Some d => Py.truthy d
    | None => false
    end in
  let args_info := collect_args a in
  args_info ← apply_defaults a args_info;
  let baseline_docstring :=
    _generate_baseline_docstring name args_info class_name in
  return_type ← return_type_of returns;
  Ok (mk_FuncInfo name class_name has_docstring docstring args_info
                  return_type baseline_docstring).

(** The body of the [if] of [visit_FunctionDef], lines 171 to 181. *)
Definition record_function (name : string) (a : arguments)
           (body : list stmt) (returns : option expr) (self : ASTAnalyzer)
  : result ASTAnalyzer :=
  func_info ← _extract_function_info name a body returns None;
  Ok (mk_ASTAnalyzer
        (classes self)
        (functions self ++ [name])
        (methods self)
        (function_details self ++ [func_info])
        (method_details self)
        (if fi_has_docstring func_info
         then functions_with_docstrings self + 1
         else functions_with_docstrings self)
        (if fi_has_docstring func_info
         then functions_without_docstrings self
         else functions_without_docstrings self + 1)
        (methods_with_docstrings self)
        (methods_without_docstrings self)).

(** One turn of the loop of [visit_ClassDef], lines 154 to 164. *)
Definition record_method (class_name : string) (item : stmt)
           (self : ASTAnalyzer) : result ASTAnalyzer :=
  match item with
  | FunctionDef name a body returns =>
      method_info ← _extract_function_info name a body returns (Some class_name);
      Ok (mk_ASTAnalyzer
            (classes self)
            (functions self)
            (methods self ++ [(class_name ++ "." ++ name)%string])
            (function_details self)
            (method_details self ++ [method_info])
            (functions_with_docstrings self)
            (functions_without_docstrings self)
            (if fi_has_docstring method_info
             then methods_with_docstrings self + 1
             else methods_with_docstrings self)
            (if fi_has_docstring method_info
             then methods_without_docstrings self
             else methods_without_docstrings self + 1))
  | _ => Ok self
  end.

Fixpoint record_methods (class_name : string) (body : list stmt)
         (self : ASTAnalyzer) : result ASTAnalyzer :=
  match body with
  | [] => Ok self
  | item :: rest =>
      self' ← record_method class_name item self;
      record_methods class_name rest self'
  end.

Definition add_class (name : string) (self : ASTAnalyzer) : ASTAnalyzer :=
  mk_ASTAnalyzer (classes self ++ [name]) (functions self) (methods self)
                 (function_details self) (method_details self)
                 (functions_with_docstrings self)
                 (functions_without_docstrings self)
                 (methods_with_docstrings self)
                 (methods_without_docstrings self).

(** [NodeVisitor.visit]: dispatch to [visit_FunctionDef], [visit_ClassDef]
    or [generic_visit]; the local [generic_visit] visits the statements
    below a node, in order. *)
Fixpoint visit (node : stmt) (self : ASTAnalyzer) {struct node}
  : result ASTAnalyzer :=
  let generic_visit :=
    fix generic_visit (nodes : list stmt) (self : ASTAnalyzer)
      : result ASTAnalyzer :=
      match nodes with
      | [] => Ok self
      | n :: rest => self' ← visit n self; generic_visit rest self'
      end in
  match node with
  | FunctionDef name a body returns =>
      self' ← (if negb (walk_has_ClassDef node)
               then record_function name a body returns self
               else Ok self);
      generic_visit body self'
  | ClassDef name body =>
      self' ← record_methods name body (add_class name self);
      generic_visit body self'
  | AsyncFunctionDef _ _ body _ => generic_visit body self
  | Expr _ => Ok self
  | OtherStmt children => generic_visit children self
  end.

(** [NodeVisitor.generic_visit], on the statements below a node. *)
Fixpoint generic_visit (nodes : list stmt) (self : ASTAnalyzer)
  : result ASTAnalyzer :=
  match nodes with
  | [] => Ok self
  | n :: rest => self' ← visit n self; generic_visit rest self'
  end.

(** [ASTAnalyzer.visit_FunctionDef], the branch of [visit] on a function
    definition. *)
Definition visit_FunctionDef (name : string) (a : arguments)
           (body : list stmt) (returns : option expr) (self : ASTAnalyzer)
  : result ASTAnalyzer :=
  self' ← (if negb (walk_has_ClassDef (FunctionDef name a body returns))
           then record_function name a body returns self
           else Ok self);
  generic_visit body self'.

(** [ASTAnalyzer.visit_ClassDef], the branch of [visit] on a class
    definition. *)
Definition visit_ClassDef (name : string) (body : list stmt)
           (self : ASTAnalyzer) : result ASTAnalyzer :=
  self' ← record_methods name body (add_class name self);
  generic_visit body self'.

End Analyzer.

(** ** [count_all_comments] *)

Inductive token_type : Set := COMMENT | STRING | OTHER_TOKEN.

Record token : Set := mk_token { tok_type : token_type; tok_string : string }.

(** The three local counters of [count_all_comments]. *)
Record counters : Set := mk_counters {
  c_single : nat;
  c_multi : nat;
  c_docstring : nat
}.

(** The dictionary [count_all_comments] returns. *)
Record CommentCounts : Set := mk_CommentCounts {
  cc_single_line_comments : nat;
  cc_multi_line_comments : nat;
  cc_docstring_lines : nat;
  cc_total_comments : nat
}.

Definition dquote : ascii := ascii_of_nat 34.
Definition triple_double : string :=
  String dquote (String dquote (String dquote EmptyString)).
Definition triple_single : string := "'''".

(** The test of lines 205 and 206 on the stripped token text. *)
Definition is_triple_quoted (token_str : string) : bool :=
  (Py.startswith token_str triple_double && Py.endswith token_str triple_double)
  || (Py.startswith token_str triple_single && Py.endswith token_str triple_single).

(** [len(token.string.split('\n'))]. *)
Definition token_lines (t : token) : nat := length (Py.split_nl (tok_string t)).

(** [content = token_str[3:-3].strip()]. *)
Definition literal_content (token_str : string) : string :=
  Py.strip (Py.slice_3_m3 token_str).

(** [content and not content.isnumeric()]. *)
Definition docstring_like (content : string) : bool :=
  Py.truthy content && negb (Py.isnumeric content).

(** The body of the [for token in tokens] loop. *)
Definition count_token (c : counters) (t : token) : counters :=
  match tok_type t with
  | COMMENT => mk_counters (c_single c + 1) (c_multi c) (c_docstring c)
  | STRING =>
      let token_str := Py.strip (tok_string t) in
      if is_triple_quoted token_str then
        let lines := token_lines t in
        let content := literal_content token_str in
        mk_counters (c_single c) (c_multi c + lines)
                    (if docstring_like content then c_docstring c + lines
                     else c_docstring c)
      else c
  | OTHER_TOKEN => c
  end.

(** The body of the loop of the [except] branch. *)
Definition count_line (c : counters) (line : string) : counters :=
  let stripped := Py.strip line in
  if Py.startswith stripped "#" then
    mk_counters (c_single c + 1) (c_multi c) (c_docstring c)
  else if Py.startswith stripped triple_double
          || Py.startswith stripped triple_single then
    mk_counters (c_single c) (c_multi c + 1) (c_docstring c)
  else c.

Section Counting.

(** [tokenize.generate_tokens(StringIO(source_code).readline)]: the tokens
    the generator yields, and whether it then raised instead of ending. *)
Variable generate_tokens : string -> list token * bool.

(** [count_all_comments].  The counters are not reset when the [except]
    branch runs: it continues from what the token loop had counted. *)
Definition count_all_comments (source_code : string) : CommentCounts :=
  let c := mk_counters 0 0 0 in
  let '(tokens, raised) := generate_tokens source_code in
  let c := fold_left count_token tokens c in
  let c := if raised
           then fold_left count_line (Py.splitlines source_code) c
           else c in
  mk_CommentCounts (c_single c) (c_multi c) (c_docstring c)
                   (c_single c + c_multi c).

End Counting.

(** ** [analyze_python_code] *)

Record Counts : Type := mk_Counts {
  total_modules : nat;
  total_classes : nat;
  total_functions : nat;
  total_methods : nat;
  total_comments : nat;
  single_line_comments : nat;
  multi_line_comments : nat;
  docstring_lines : nat;
  r_functions_with_docstrings : nat;
  r_functions_without_docstrings : nat;
  r_methods_with_docstrings : nat;
  r_methods_without_docstrings : nat;
  total_with_docstrings : nat;
  total_without_docstrings : nat;
  docstring_coverage : Q
}.

Record Report : Type := mk_Report {
  r_modules : nat;
  r_classes : list string;
  r_functions : list string;
  r_methods : list string;
  r_function_details : list FuncInfo;
  r_method_details : list FuncInfo;
  r_counts : Counts
}.

Definition Qnat (n : nat) : Q := inject_Z (Z.of_nat n).

(** ** Python's [float]

    A finite [float] is a binary64 number; it is modelled by the rational it
    denotes.  [binary64 x] is the float nearest to [x], a tie going to the
    even significand: the significand has 53 bits and the exponent of its
    last bit is at least [emin], so that the numbers below [2 ^ -1022] are
    the subnormal ones.  The definition is meant for [0 <= x < 2 ^ 1024]; no
    number met here leaves that range. *)
Module Float.

Definition pow2 (e : Z) : Q := (2 ^ e)%Q.

(** [x / 2 ^ e]: the significand of [x] before rounding, when [e] is the
    exponent of the last bit. *)
Definition scaled (x : Q) (e : Z) : Q := (x / pow2 e)%Q.

Definition emin : Z := (-1074)%Z.

(** The least exponent from [e] on at which the significand is below
    [2 ^ 53], looked for in [fuel] steps. *)
Fixpoint exponent_from (fuel : nat) (e : Z) (x : Q) : Z :=
  match fuel with
  | O => e
  | S fuel' =>
      if Qle_bool (pow2 53) (scaled x e)
      then exponent_from fuel' (e + 1)%Z x
      else e
  end.

(** The exponent of the last bit of the significand of [x], from [emin] up
    to 971, the exponent of the largest floats. *)
Definition exponent (x : Q) : Z := exponent_from 2045 emin x.

(** The integer nearest to [q], the even one of two at the same distance. *)
Definition round_half_even (q : Q) : Z :=
  let f := Qfloor q in
  match (q - inject_Z f ?= 1 # 2)%Q with
  | Lt => f
  | Eq => if Z.even f then f else (f + 1)%Z
  | Gt => (f + 1)%Z
  end.

Definition binary64 (x : Q) : Q :=
  let e := exponent x in
  (inject_Z (round_half_even (scaled x e)) * pow2 e)%Q.

End Float.

(** The conditional expression of lines 274 to 277.  The operands of [/] are
    two [int]s: the result is the float nearest to their quotient, and its
    product with [100] is rounded once more.  The [0] of the other branch is
    an [int]. *)
Definition coverage (total_with_docstrings total_functions_and_methods : nat) : Q :=
  if 0 <? total_functions_and_methods
  then Float.binary64
         (Float.binary64 (Qnat total_with_docstrings
                          / Qnat total_functions_and_methods) * 100)%Q
  else 0%Q.

(** Lines 246 to 281: the report built from the analyzer and the counts. *)
Definition build_report (analyzer : ASTAnalyzer) (comment_counts : CommentCounts)
  : Report :=
  let total_functions_and_methods :=
    length (function_details analyzer) + length (method_details analyzer) in
  let total_with_docstrings :=
    functions_with_docstrings analyzer + methods_with_docstrings analyzer in
  let total_without_docstrings :=
    functions_without_docstrings analyzer + methods_without_docstrings analyzer in
  mk_Report 1 (classes analyzer) (functions analyzer) (methods analyzer)
    (function_details analyzer) (method_details analyzer)
    (mk_Counts 1
       (length (classes analyzer))
       (length (functions analyzer))
       (length (methods analyzer))
       (cc_total_comments comment_counts)
       (cc_single_line_comments comment_counts)
       (cc_multi_line_comments comment_counts)
       (cc_docstring_lines comment_counts)
       (functions_with_docstrings analyzer)
       (functions_without_docstrings analyzer)
       (methods_with_docstrings analyzer)
       (methods_without_docstrings analyzer)
       total_with_docstrings
       total_without_docstrings
       (coverage total_with_docstrings total_functions_and_methods)).

Section Analyze.

Variable has_unparse : bool.
Variable unparse : expr -> result string.
Variable generate_tokens : string -> list token * bool.

(** [ast.parse]: the body of the module, or [None] for a [SyntaxError]. *)
Variable ast_parse : string -> option (list stmt).

(** Lines 239 to 281, once the tree is there. *)
Definition analyze_tree (tree : list stmt) (source_code : string)
  : result Report :=
  analyzer ← generic_visit has_unparse unparse tree ASTAnalyzer_init;
  let comment_counts := count_all_comments generate_tokens source_code in
  Ok (build_report analyzer comment_counts).

Definition analyze_python_code (source_code : string) : result Report :=
  match ast_parse source_code with
  | None => Raise SyntaxError
  | Some tree => analyze_tree tree source_code
  end.

End Analyze.

(** ** Concrete inputs *)

Module Examples.

Definition plain (name : string) : arg := mk_arg name None.

Definition no_args : arguments := mk_arguments [] [] None [] [] None [].

Definition one (value : string) : expr := Constant (COther value).

(** A rendering that stands for [ast.unparse] where an example needs a
    concrete one. *)
Definition unparse_text (e : expr) : result string :=
  Ok (_annotation_to_string e).

(** [class C:\n    def m(self): pass] *)
Definition class_with_method : list stmt :=
  [ClassDef "C"
     [FunctionDef "m" (mk_arguments [] [plain "self"] None [] [] None [])
                  [pass] None]].

(** [def f():\n    def g(): pass] *)
Definition nested_function : list stmt :=
  [FunctionDef "f" no_args [FunctionDef "g" no_args [pass] None] None].

(** [def f():\n    class K: pass] *)
Definition function_with_local_class : list stmt :=
  [FunctionDef "f" no_args [ClassDef "K" [pass]] None].

(** The parameters of [def f(a=1, /, b=2, **kw): pass]. *)
Definition posonly_default_kw : arguments :=
  mk_arguments [plain "a"] [plain "b"] None [] [] (Some (plain "kw"))
               [one "1"; one "2"].

(** The parameters of [def f(a, /, b): pass]. *)
Definition posonly_then_positional : arguments :=
  mk_arguments [plain "a"] [plain "b"] None [] [] None [].

(** The parameters of [def f(a=1, /): pass]. *)
Definition posonly_with_default : arguments :=
  mk_arguments [plain "a"] [] None [] [] None [one "1"].

Definition src_posonly_with_default : string := "def f(a=1, /): pass".

Definition tree_posonly_with_default : list stmt :=
  [FunctionDef "f" posonly_with_default [pass] None].

(** The parameters of [def f(a, b=1, *args, **kw): pass]. *)
Definition scenario_A : arguments :=
  mk_arguments [] [plain "a"; plain "b"] (Some (plain "args")) [] []
               (Some (plain "kw")) [one "1"].

(** The body of [def f():\n    ''] with an empty string literal. *)
Definition body_empty_literal : list stmt :=
  [Expr (Constant (CStr EmptyString)); pass].

(** The body of [def f():\n    'desc  '], two blanks before the quote. *)
Definition body_trailing_blanks : list stmt :=
  [Expr (Constant (CStr "desc  "))].

(** [def f(): pass] *)
Definition src_undocumented : string := "def f(): pass".

Definition tree_undocumented : list stmt :=
  [FunctionDef "f" no_args [pass] None].

(** The tokens of [def f(): pass]: names, operators, the end of the line
    and the end marker, none of them a comment or a string. *)
Definition tokens_undocumented : list token :=
  map (mk_token OTHER_TOKEN)
      ["def"; "f"; "("; ")"; ":"; "pass"; EmptyString; EmptyString]%string.

(** [ast.parse] and [tokenize.generate_tokens] on the sources of the
    examples. *)
Definition parse (source_code : string) : option (list stmt) :=
  if String.eqb source_code src_undocumented then Some tree_undocumented
  else if String.eqb source_code src_posonly_with_default
       then Some tree_posonly_with_default
  else match source_code with
       | EmptyString => Some []
       | _ => None
       end.

Definition tokenize (source_code : string) : list token * bool :=
  if String.eqb source_code src_undocumented then (tokens_undocumented, false)
  else ([], false).

(** The token of a triple-quoted literal that holds three blanks. *)
Definition blank_literal : token :=
  mk_token STRING (triple_double ++ "   " ++ triple_double)%string.

(** The token of a triple-quoted literal that holds [ 42 ]. *)
Definition padded_number_literal : token :=
  mk_token STRING (triple_double ++ " 42 " ++ triple_double)%string.

End Examples.

(** ** The claims' own vocabulary

    These definitions follow the wording of the specification; the
    properties below compare them with the code. *)

Module Spec.

(** The content of the bare string literal that opens a body, if any. *)
Definition leading_string_literal (body : list stmt) : option string :=
  match body with
  | Expr (Constant (CStr text)) :: _ => Some text
  | _ => None
  end.

(** Leading and trailing whitespace trimmed on every line. *)
Definition trim_each_line (text : string) : string :=
  Py.join_nl (map Py.strip (Py.split_nl text)).

(** One line of the ["Args:"] section, by the kind of the parameter. *)
Definition described_line (p : ArgInfo) : string :=
  match get_flag (ai_vararg p), get_flag (ai_kwargs p) with
  | true, _ =>
      ("    *" ++ ai_name p ++ " (" ++ ai_type p
         ++ "): Variable positional arguments")%string
  | false, true =>
      ("    **" ++ ai_name p ++ " (" ++ ai_type p
         ++ "): Variable keyword arguments")%string
  | false, false =>
      ("    " ++ ai_name p ++ " (" ++ ai_type p
         ++ "): Description of " ++ ai_name p)%string
  end.

Definition args_section (params : list ArgInfo) : list string :=
  match params with
  | [] => []
  | _ => EmptyString :: "Args:"%string :: map described_line params
  end.

Definition returns_section : list string :=
  [EmptyString; "Returns:"%string; "    Any: Description of return value"%string].

(** Name, blank line and ["Args:"] section unless there is no parameter,
    blank line and ["Returns:"] section. *)
Definition baseline_layout (name : string) (params : list ArgInfo) : string :=
  Py.join_nl ([name] ++ args_section params ++ returns_section).

(** The inner content of a triple-quoted token text, quotes stripped. *)
Definition inner_content (token_str : string) : string :=
  Py.slice_3_m3 token_str.

Definition is_comment (t : token) : bool :=
  match tok_type t with COMMENT => true | _ => false end.

(** A STRING token whose trimmed text begins and ends with the same
    triple-quote delimiter. *)
Definition is_triple_quoted_literal (t : token) : bool :=
  match tok_type t with
  | STRING => is_triple_quoted (Py.strip (tok_string t))
  | _ => false
  end.

(** Documentation-like as the claim words it: the inner content is not
    empty and not purely numeric. *)
Definition documentation_like_as_stated (t : token) : bool :=
  let content := inner_content (Py.strip (tok_string t)) in
  is_triple_quoted_literal t && Py.truthy content
  && negb (Py.isnumeric content).

(** Documentation-like with the inner content trimmed first. *)
Definition documentation_like (t : token) : bool :=
  let content := Py.strip (inner_content (Py.strip (tok_string t))) in
  is_triple_quoted_literal t && Py.truthy content
  && negb (Py.isnumeric content).

(** Sum of the lines spanned by the tokens that satisfy [p]. *)
Definition lines_of (p : token -> bool) (tokens : list token) : nat :=
  list_sum (map token_lines (List.filter p tokens)).

(** The two kinds of lines the line scan counts. *)
Definition comment_line (line : string) : bool :=
  Py.startswith (Py.strip line) "#".

Definition literal_line (line : string) : bool :=
  negb (comment_line line)
  && (Py.startswith (Py.strip line) triple_double
      || Py.startswith (Py.strip line) triple_single).

(** The lines the [except] branch scans: all of them after a tokenizer
    failure, none otherwise. *)
Definition scanned_lines (raised : bool) (source_code : string) : list string :=
  if raised then Py.splitlines source_code else [].

(** What the visitor lists as functions: every [FunctionDef] node of the
    tree, wherever it stands, that has no class definition below it. *)
Fixpoint listed_functions (node : stmt) : list string :=
  match node with
  | FunctionDef name _ body _ =>
      (if walk_has_ClassDef node then [] else [name])
        ++ flat_map listed_functions body
  | AsyncFunctionDef _ _ body _ => flat_map listed_functions body
  | ClassDef _ body => flat_map listed_functions body
  | Expr _ => []
  | OtherStmt children => flat_map listed_functions children
  end.

(** The [FunctionDef] statements directly in a class body, qualified. *)
Definition direct_methods (class_name : string) (body : list stmt)
  : list string :=
  flat_map (fun item => match item with
                        | FunctionDef name _ _ _ =>
                            [(class_name ++ "." ++ name)%string]
                        | _ => []
                        end) body.

(** What the visitor lists as methods: for every class of the tree, the
    function definitions directly in its body. *)
Fixpoint listed_methods (node : stmt) : list string :=
  match node with
  | ClassDef name body =>
      direct_methods name body ++ flat_map listed_methods body
  | FunctionDef _ _ body _ => flat_map listed_methods body
  | AsyncFunctionDef _ _ body _ => flat_map listed_methods body
  | Expr _ => []
  | OtherStmt children => flat_map listed_methods children
  end.

(** The counters of the analyzer agree with the records it holds. *)
Definition counters_match_records (self : ASTAnalyzer) : Prop :=
  functions_with_docstrings self + functions_without_docstrings self
  = length (function_details self)
  /\ methods_with_docstrings self + methods_without_docstrings self
     = length (method_details self).

End Spec.

(** ** [backend/main.py]: the [/analyze] route *)


Section Endpoint.

(** The exceptions a call of [analyze_python_code] can end with, whatever
    raises them, and the test of the clause [except SyntaxError]. *)
Variable exception : Type.
Variable is_SyntaxError : exception -> bool.

(** The call [analyze_python_code(source_code)] of line 91: the report it
    returns or the exception it raises. *)
Variable analysis_of : string -> Report + exception.

(** [content.decode("utf-8")], [None] for [UnicodeDecodeError]. *)
Variable decode_utf8 : list Byte.byte -> option string.

(** [str(e)] of the exception the analysis raised. *)
Variable exn_text : exception -> string.


End Endpoint.

(** ** [frontend/app.py]: what the display computes from a report *)

Module Frontend.

(** [[f for f in details if not f['has_docstring']]], lines 329 and 330. *)
Definition missing (details : list FuncInfo) : list FuncInfo :=
  List.filter (fun f => negb (fi_has_docstring f)) details.

(** The title of an expander in [display_function_details]:
    [f"{func['class_name'] + '.' if is_method else ''}{func['name']}"];
    [None] stands for the [TypeError] of adding a [str] to [None]. *)
Definition expander_label (is_method : bool) (func : FuncInfo)
  : option string :=
  if is_method then
    match fi_class_name func with
    | Some class_name => Some (class_name ++ "." ++ fi_name func)%string
    | None => None
    end
  else Some (fi_name func).

End Frontend.

(** ** Further vocabulary for the properties of the code *)

Module Terms.

(** Class definitions in the order the visitor meets them. *)
Fixpoint listed_classes (node : stmt) : list string :=
  match node with
  | ClassDef name body => name :: flat_map listed_classes body
  | FunctionDef _ _ body _ => flat_map listed_classes body
  | AsyncFunctionDef _ _ body _ => flat_map listed_classes body
  | Expr _ => []
  | OtherStmt children => flat_map listed_classes children
  end.

(** The text holds no line feed. *)
Fixpoint one_line (s : string) : bool :=
  match s with
  | EmptyString => true
  | String c r => negb (Ascii.eqb c Py.newline) && one_line r
  end.

(** Number of line feeds in the text. *)
Fixpoint line_feeds (s : string) : nat :=
  match s with
  | EmptyString => 0
  | String c r => (if Ascii.eqb c Py.newline then 1 else 0) + line_feeds r
  end.

(** Every character is whitespace. *)
Fixpoint blank (s : string) : bool :=
  match s with
  | EmptyString => true
  | String c r => Py.isspace c && blank r
  end.

(** The names of the recorded functions agree with the name list, none of
    these records has a class name, and the qualified names of the recorded
    methods agree with the method list. *)
Definition records_match_names (self : ASTAnalyzer) : Prop :=
  map fi_name (function_details self) = functions self
  /\ Forall (fun f => fi_class_name f = None) (function_details self)
  /\ map (Frontend.expander_label true) (method_details self)
     = map Some (methods self).

(** Each counter is the number of records with, or without, the flag. *)
Definition counters_count_flags (self : ASTAnalyzer) : Prop :=
  functions_with_docstrings self
  = length (List.filter fi_has_docstring (function_details self))
  /\ functions_without_docstrings self
     = length (Frontend.missing (function_details self))
  /\ methods_with_docstrings self
     = length (List.filter fi_has_docstring (method_details self))
  /\ methods_without_docstrings self
     = length (Frontend.missing (method_details self)).

End Terms.

(** The parameters of [def f(a: int, *args: str, b: bool = True, **kw: int)
    -> int]. *)
Definition annotated_signature : arguments :=
  mk_arguments []
    [mk_arg "a" (Some (Name "int"))]
    (Some (mk_arg "args" (Some (Name "str"))))
    [mk_arg "b" (Some (Name "bool"))]
    [Some (Constant (COther "True"))]
    (Some (mk_arg "kw" (Some (Name "int"))))
    [].

(** [class C:\n    def m(self):\n        'desc'] and a function [g]
    without docstring. *)
Definition tree_method_and_function : list stmt :=
  [ClassDef "C"
     [FunctionDef "m" (mk_arguments [] [mk_arg "self" None] None [] [] None [])
                  [Expr (Constant (CStr "desc"))] None];
   FunctionDef "g" Examples.no_args [pass] None].

(** [ast.parse] and [tokenize.generate_tokens] on a second set of sources. *)
Module Samples.

(** A class with a documented method, and an undocumented function. *)
Definition src_method_and_function : string :=
  ("class C:" ++ Py.nl ++ "    def m(self):" ++ Py.nl
     ++ "        'desc'" ++ Py.nl ++ "def g(): pass" ++ Py.nl)%string.

Definition tokens_method_and_function : list token :=
  map (mk_token OTHER_TOKEN)
      ["class"; "C"; ":"; Py.nl; "    "; "def"; "m"; "("; "self"; ")"; ":";
       Py.nl; "        "]%string
  ++ [mk_token STRING "'desc'"]
  ++ map (mk_token OTHER_TOKEN)
         [Py.nl; EmptyString; EmptyString; "def"; "g"; "("; ")"; ":"; "pass";
          Py.nl; EmptyString]%string.

(** An unterminated triple-quoted literal after a comment line: the
    tokenizer yields the comment and the end of its line, then fails. *)
Definition src_unterminated : string :=
  ("  # note" ++ Py.nl ++ "'''open" ++ Py.nl ++ "x = 1" ++ Py.nl)%string.

Definition parse (source_code : string) : option (list stmt) :=
  if String.eqb source_code src_method_and_function
  then Some tree_method_and_function
  else None.

Definition tokenize (source_code : string) : list token * bool :=
  if String.eqb source_code src_method_and_function
  then (tokens_method_and_function, false)
  else if String.eqb source_code src_unterminated
       then ([mk_token COMMENT "# note"; mk_token OTHER_TOKEN Py.nl], true)
  else ([], false).

End Samples.

(** ** Induction over statements *)

Section StmtInduction.

Variable P : stmt -> Prop.
Hypothesis P_FunctionDef : forall name a body returns,
    Forall P body -> P (FunctionDef name a body returns).
Hypothesis P_AsyncFunctionDef : forall name a body returns,
    Forall P body -> P (AsyncFunctionDef name a body returns).
Hypothesis P_ClassDef : forall name body, Forall P body -> P (ClassDef name body).
Hypothesis P_Expr : forall value, P (Expr value).
Hypothesis P_OtherStmt : forall children,
    Forall P children -> P (OtherStmt children).

Fixpoint stmt_nested_ind (node : stmt) : P node :=
  let all :=
    fix all (nodes : list stmt) : Forall P nodes :=
      match nodes with
      | [] => @List.Forall_nil stmt P
      | n :: rest =>
          @List.Forall_cons stmt P n rest (stmt_nested_ind n) (all rest)
      end in
  match node with
  | FunctionDef name a body returns => P_FunctionDef name a body returns (all body)
  | AsyncFunctionDef name a body returns =>
      P_AsyncFunctionDef name a body returns (all body)
  | ClassDef name body => P_ClassDef name body (all body)
  | Expr value => P_Expr value
  | OtherStmt children => P_OtherStmt children (all children)
  end.

End StmtInduction.

(** * Properties *)

(** ** The error monad *)

Lemma bind_Ok {A B : Type} (r : result A) (k : A -> result B) (b : B) :
  (r ≫= k) = Ok b -> exists a, r = Ok a /\ k a = Ok b.
Proof.
  destruct r as [a|e]; simpl; intros H.
  - exists a. split; [reflexivity | exact H].
  - discriminate H.
Qed.

(** ** The visitor unfolds as the source reads *)

Section VisitEquations.

Variable has_unparse : bool.
Variable unparse : expr -> result string.

Local Abbreviation visit := (visit has_unparse unparse).
Local Abbreviation generic_visit := (generic_visit has_unparse unparse).

Lemma visit_FunctionDef_eq name a body returns self :
  visit (FunctionDef name a body returns) self
  = visit_FunctionDef has_unparse unparse name a body returns self.
Proof. reflexivity. Qed.

Lemma visit_ClassDef_eq name body self :
  visit (ClassDef name body) self
  = visit_ClassDef has_unparse unparse name body self.
Proof. reflexivity. Qed.

Lemma visit_AsyncFunctionDef_eq name a body returns self :
  visit (AsyncFunctionDef name a body returns) self = generic_visit body self.
Proof. reflexivity. Qed.

Lemma visit_OtherStmt_eq children self :
  visit (OtherStmt children) self = generic_visit children self.
Proof. reflexivity. Qed.

End VisitEquations.

(** ** Loops that append *)

Lemma fold_left_snoc_map {A B : Type} (f : A -> B) (xs : list A) (init : list B) :
  fold_left (fun acc x => acc ++ [f x]) xs init = init ++ map f xs.
Proof.
  revert init. induction xs as [|x xs IH]; intros init; simpl.
  - symmetry. apply app_nil_r.
  - rewrite IH, <- app_assoc. reflexivity.
Qed.

(** ** [_extract_function_info] *)

Section Extraction.

Variable has_unparse : bool.
Variable unparse : expr -> result string.

Local Abbreviation extract := (_extract_function_info has_unparse unparse).
Local Abbreviation collect := (collect_args has_unparse unparse).

(** What a returned record holds, field by field. *)
Lemma extract_Ok_fields name a body returns class_name info :
  extract name a body returns class_name = Ok info ->
  fi_name info = name
  /\ fi_class_name info = class_name
  /\ fi_docstring info = get_docstring body
  /\ fi_has_docstring info
     = match get_docstring body with Some d => Py.truthy d | None => false end
  /\ apply_defaults a (collect a) = Ok (fi_args info)
  /\ fi_baseline_docstring info
     = _generate_baseline_docstring name (fi_args info) class_name.
Proof.
  unfold _extract_function_info. intros H.
  apply bind_Ok in H as (args_info & Hargs & H).
  apply bind_Ok in H as (rt & _ & H).
  injection H as <-. simpl. repeat split; try reflexivity. exact Hargs.
Qed.

Lemma collect_args_eq a :
  collect a
  = map (positional_entry has_unparse unparse) (args a)
    ++ map (kwonly_entry has_unparse unparse) (kwonlyargs a)
    ++ map vararg_entry (option_list (vararg a))
    ++ map kwarg_entry (option_list (kwarg a)).
Proof.
  unfold collect_args, append_entries, append_optional.
  rewrite !fold_left_snoc_map. simpl.
  destruct (vararg a), (kwarg a); simpl;
    rewrite <- ?app_assoc, ?app_nil_r; reflexivity.
Qed.

End Extraction.

(** ** The baseline docstring *)

Lemma arg_line_described (p : ArgInfo) : arg_line p = Spec.described_line p.
Proof.
  unfold arg_line, Spec.described_line.
  destruct (get_flag (ai_vararg p)), (get_flag (ai_kwargs p)); reflexivity.
Qed.

Lemma generate_baseline_layout (func_name : string) (params : list ArgInfo)
      (class_name : option string) :
  _generate_baseline_docstring func_name params class_name
  = Spec.baseline_layout func_name params.
Proof.
  unfold _generate_baseline_docstring, Spec.baseline_layout, Spec.args_section.
  f_equal. destruct params as [|p params].
  - reflexivity.
  - rewrite fold_left_snoc_map. simpl.
    rewrite <- !app_assoc. simpl.
    rewrite arg_line_described.
    rewrite (map_ext arg_line Spec.described_line arg_line_described).
    reflexivity.
Qed.

(** ** The defaults sweep keeps everything but the default flags *)

Lemma alter_with_default_shape (j : nat) (l : list ArgInfo) :
  map (with_default false) (alter (with_default true) j l)
  = map (with_default false) l.
Proof.
  revert j. induction l as [|x l IH]; intros [|j]; simpl; try reflexivity.
  f_equal. apply IH.
Qed.

Lemma mark_default_shape (i : Z) (l l' : list ArgInfo) :
  mark_default i l = Ok l' ->
  map (with_default false) l' = map (with_default false) l.
Proof.
  unfold mark_default.
  destruct (i <? Z.of_nat (length l))%Z; [|intros [= <-]; reflexivity].
  destruct ((if (i <? 0)%Z then (i + Z.of_nat (length l))%Z else i) <? 0)%Z;
    [discriminate|].
  intros [= <-]. apply alter_with_default_shape.
Qed.

Lemma sweep_defaults_shape (ds : list expr) :
  forall (i : Z) (l l' : list ArgInfo),
    sweep_defaults i ds l = Ok l' ->
    map (with_default false) l' = map (with_default false) l.
Proof.
  induction ds as [|d ds IH]; simpl; intros i l l' H.
  - injection H as <-. reflexivity.
  - apply bind_Ok in H as (l1 & H1 & H2).
    rewrite (IH _ _ _ H2). exact (mark_default_shape _ _ _ H1).
Qed.

Lemma apply_defaults_shape (a : arguments) (l l' : list ArgInfo) :
  apply_defaults a l = Ok l' ->
  map (with_default false) l' = map (with_default false) l.
Proof.
  unfold apply_defaults. destruct (defaults a) as [|d ds] eqn:E.
  - intros [= <-]. reflexivity.
  - apply sweep_defaults_shape.
Qed.

(** A projection that does not read the default flag sees the same list. *)
Lemma shape_projection {B : Type} (f : ArgInfo -> B) (l l' : list ArgInfo) :
  (forall b x, f (with_default b x) = f x) ->
  map (with_default false) l' = map (with_default false) l ->
  map f l' = map f l.
Proof.
  intros Hf H.
  rewrite <- (map_ext _ _ (fun x => Hf false x) l).
  rewrite <- (map_ext _ _ (fun x => Hf false x) l').
  rewrite <- !(map_map (with_default false) f). rewrite H. reflexivity.
Qed.

(** In a definition with no more defaults than positional parameters the
    sweep stays inside the list: it never raises, and it marks the
    positions from [i] on, one per default. *)
Lemma mark_default_in_range (i : nat) (l : list ArgInfo) :
  i < length l ->
  mark_default (Z.of_nat i) l = Ok (alter (with_default true) i l).
Proof.
  intros Hi. unfold mark_default. cbv zeta.
  assert ((Z.of_nat i <? Z.of_nat (length l))%Z = true) as ->
      by (apply Z.ltb_lt; lia).
  assert ((Z.of_nat i <? 0)%Z = false) as E by (apply Z.ltb_ge; lia).
  rewrite E. cbv iota. rewrite E, Nat2Z.id. reflexivity.
Qed.

Lemma sweep_defaults_in_range (ds : list expr) :
  forall (i : nat) (l : list ArgInfo),
    i + length ds <= length l ->
    exists l',
      sweep_defaults (Z.of_nat i) ds l = Ok l'
      /\ forall k : nat,
          l' !! k = if decide (i <= k < i + length ds)
                    then with_default true <$> l !! k
                    else l !! k.
Proof.
  induction ds as [|d ds IH]; simpl; intros i l Hlen.
  - exists l. split; [reflexivity|]. intros k.
    destruct (decide (i <= k < i + 0)); [lia | reflexivity].
  - rewrite mark_default_in_range by lia. simpl.
    replace (Z.of_nat i + 1)%Z with (Z.of_nat (S i)) by lia.
    destruct (IH (S i) (alter (with_default true) i l)) as (l' & Hsweep & Hl').
    { rewrite length_alter. lia. }
    exists l'. split; [exact Hsweep|]. intros k. rewrite Hl'.
    destruct (decide (k = i)) as [->|Hne].
    + rewrite list_lookup_alter_eq.
      destruct (decide (S i <= i < S i + length ds)); [lia|].
      destruct (decide (i <= i < i + S (length ds))); [reflexivity | lia].
    + rewrite list_lookup_alter_ne by congruence.
      destruct (decide (S i <= k < S i + length ds)),
               (decide (i <= k < i + S (length ds))); try reflexivity; lia.
Qed.

Lemma lookup_map_Some {A B : Type} (f : A -> B) (l : list A) (k : nat) (y : B) :
  map f l !! k = Some y -> exists x, l !! k = Some x /\ y = f x.
Proof.
  revert k. induction l as [|x l IH]; intros [|k]; simpl; try discriminate.
  - intros [= <-]. exists x. split; reflexivity.
  - apply IH.
Qed.

Lemma apply_defaults_in_range (a : arguments) (l : list ArgInfo) :
  length (defaults a) <= length (args a) ->
  length (args a) <= length l ->
  exists l',
    apply_defaults a l = Ok l'
    /\ forall k : nat,
        l' !! k = if decide (length (args a) - length (defaults a) <= k
                             < length (args a))
                  then with_default true <$> l !! k
                  else l !! k.
Proof.
  intros HK Hl. unfold apply_defaults.
  destruct (defaults a) as [|d ds] eqn:E.
  - exists l. split; [reflexivity|]. intros k. simpl.
    destruct (decide (length (args a) - 0 <= k < length (args a)));
      [lia | reflexivity].
  - set (K := length (d :: ds)) in *.
    replace (Z.of_nat (length (args a)) - Z.of_nat K)%Z
      with (Z.of_nat (length (args a) - K)) by lia.
    destruct (sweep_defaults_in_range (d :: ds) (length (args a) - K) l)
      as (l' & Hsweep & Hl'); [fold K; lia|].
    exists l'. split; [exact Hsweep|]. intros k. rewrite Hl'. fold K.
    destruct (decide (length (args a) - K <= k < length (args a) - K + K)),
             (decide (length (args a) - K <= k < length (args a)));
      try reflexivity; lia.
Qed.

Section ExtractionProperties.

Variable has_unparse : bool.
Variable unparse : expr -> result string.

Local Abbreviation extract := (_extract_function_info has_unparse unparse).
Local Abbreviation collect := (collect_args has_unparse unparse).

Lemma collect_args_length a :
  length (collect a)
  = length (args a) + length (kwonlyargs a)
    + length (option_list (vararg a)) + length (option_list (kwarg a)).
Proof.
  rewrite collect_args_eq.
  rewrite !length_app, !length_map. lia.
Qed.

(** Before the sweep the default flag is set on the keyword-only entries
    and on no other. *)
Lemma collect_args_default_flag a k p :
  collect a !! k = Some p ->
  ai_default p = true
  <-> length (args a) <= k < length (args a) + length (kwonlyargs a).
Proof.
  rewrite collect_args_eq. intros H.
  apply lookup_app_Some in H as [H | [H1 H]].
  { pose proof (lookup_lt_Some _ _ _ H) as Hlt. rewrite length_map in Hlt.
    apply lookup_map_Some in H as (x & _ & ->). simpl.
    split; [discriminate | lia]. }
  rewrite length_map in H1, H.
  apply lookup_app_Some in H as [H | [H2 H]].
  { pose proof (lookup_lt_Some _ _ _ H) as Hlt. rewrite length_map in Hlt.
    apply lookup_map_Some in H as (x & _ & ->). simpl.
    split; [lia | reflexivity]. }
  rewrite length_map in H2, H.
  apply lookup_app_Some in H as [H | [_ H]];
    apply lookup_map_Some in H as (x & _ & ->); simpl;
    (split; [discriminate | lia]).
Qed.

(** The extraction returns as soon as the defaults fit the positional
    parameters and the return annotation can be rendered. *)
Lemma extract_returns name a body returns class_name rt :
  length (defaults a) <= length (args a) ->
  return_type_of has_unparse unparse returns = Ok rt ->
  exists info, extract name a body returns class_name = Ok info.
Proof.
  intros HK Hrt. unfold _extract_function_info.
  destruct (apply_defaults_in_range a (collect a) HK) as (l' & Hl' & _).
  { rewrite collect_args_length. lia. }
  rewrite Hl'. simpl. rewrite Hrt. simpl.
  eexists. reflexivity.
Qed.

(** Names, order and variadic markers of every returned list. *)
Lemma extract_args_listing name a body returns class_name info :
  extract name a body returns class_name = Ok info ->
  map ai_name (fi_args info)
  = map arg_name (args a) ++ map arg_name (kwonlyargs a)
    ++ map arg_name (option_list (vararg a))
    ++ map arg_name (option_list (kwarg a))
  /\ map (fun p => get_flag (ai_vararg p)) (fi_args info)
     = map (fun _ => false) (args a) ++ map (fun _ => false) (kwonlyargs a)
       ++ map (fun _ => true) (option_list (vararg a))
       ++ map (fun _ => false) (option_list (kwarg a))
  /\ map (fun p => get_flag (ai_kwargs p)) (fi_args info)
     = map (fun _ => false) (args a) ++ map (fun _ => false) (kwonlyargs a)
       ++ map (fun _ => false) (option_list (vararg a))
       ++ map (fun _ => true) (option_list (kwarg a)).
Proof.
  intros H. apply extract_Ok_fields in H as (_ & _ & _ & _ & H & _).
  apply apply_defaults_shape in H.
  repeat split.
  - rewrite (shape_projection ai_name _ _ (fun _ _ => eq_refl) H).
    rewrite collect_args_eq, !map_app, !map_map. reflexivity.
  - rewrite (shape_projection (fun p => get_flag (ai_vararg p)) _ _
                              (fun _ _ => eq_refl) H).
    rewrite collect_args_eq, !map_app, !map_map. reflexivity.
  - rewrite (shape_projection (fun p => get_flag (ai_kwargs p)) _ _
                              (fun _ _ => eq_refl) H).
    rewrite collect_args_eq, !map_app, !map_map. reflexivity.
Qed.

(** With no more defaults than positional parameters, the default flag is
    set on the last [K] positional entries and on the keyword-only entries,
    and on no other. *)
Lemma extract_default_flags name a body returns class_name info :
  length (defaults a) <= length (args a) ->
  extract name a body returns class_name = Ok info ->
  forall k p,
    fi_args info !! k = Some p ->
    ai_default p = true
    <-> length (args a) - length (defaults a) <= k
        < length (args a) + length (kwonlyargs a).
Proof.
  intros HK H k p Hp.
  apply extract_Ok_fields in H as (_ & _ & _ & _ & H & _).
  destruct (apply_defaults_in_range a (collect a) HK) as (l' & Hl' & Hk).
  { rewrite collect_args_length. lia. }
  rewrite Hl' in H. injection H as ->.
  rewrite Hk in Hp.
  destruct (decide (length (args a) - length (defaults a) <= k
                    < length (args a))) as [Hin|Hout].
  - destruct (collect_args has_unparse unparse a !! k) as [q|];
      [|discriminate].
    injection Hp as <-. simpl. split; [lia | reflexivity].
  - rewrite (collect_args_default_flag a k p Hp). lia.
Qed.

End ExtractionProperties.

(** ** Classification of function definitions *)

Section Listing.

Variable has_unparse : bool.
Variable unparse : expr -> result string.

Lemma record_function_lists name a body returns self self' :
  record_function has_unparse unparse name a body returns self = Ok self' ->
  functions self' = functions self ++ [name] /\ methods self' = methods self.
Proof.
  unfold record_function. intros H.
  apply bind_Ok in H as (info & _ & H). injection H as <-. split; reflexivity.
Qed.

Lemma record_methods_lists class_name body :
  forall self self',
    record_methods has_unparse unparse class_name body self = Ok self' ->
    functions self' = functions self
    /\ methods self' = methods self ++ Spec.direct_methods class_name body.
Proof.
  induction body as [|item body IH]; simpl; intros self self' H.
  - injection H as <-. rewrite app_nil_r. split; reflexivity.
  - apply bind_Ok in H as (self1 & H1 & H2).
    apply IH in H2 as [Hf Hm]. rewrite Hf, Hm.
    destruct item; simpl in H1;
      try (injection H1 as <-; split; reflexivity).
    apply bind_Ok in H1 as (info & _ & H1). injection H1 as <-. simpl.
    rewrite <- app_assoc. split; reflexivity.
Qed.

Lemma generic_visit_lists nodes :
  Forall (fun node => forall self self',
              visit has_unparse unparse node self = Ok self' ->
              functions self' = functions self ++ Spec.listed_functions node
              /\ methods self' = methods self ++ Spec.listed_methods node)
         nodes ->
  forall self self',
    generic_visit has_unparse unparse nodes self = Ok self' ->
    functions self'
    = functions self ++ flat_map Spec.listed_functions nodes
    /\ methods self' = methods self ++ flat_map Spec.listed_methods nodes.
Proof.
  induction 1 as [|node nodes Hnode _ IH]; simpl; intros self self' H.
  - injection H as <-. rewrite !app_nil_r. split; reflexivity.
  - apply bind_Ok in H as (self1 & H1 & H2).
    apply Hnode in H1 as [Hf1 Hm1]. apply IH in H2 as [Hf2 Hm2].
    rewrite Hf2, Hm2, Hf1, Hm1, <- !app_assoc. split; reflexivity.
Qed.

(** The visitor lists as functions the [FunctionDef] nodes with no class
    below them, methods and nested functions included, and as methods the
    function definitions directly in a class body. *)
Lemma visit_lists node :
  forall self self',
    visit has_unparse unparse node self = Ok self' ->
    functions self' = functions self ++ Spec.listed_functions node
    /\ methods self' = methods self ++ Spec.listed_methods node.
Proof.
  induction node as [name a body returns IH|name a body returns IH
                     |name body IH|value|children IH]
    using stmt_nested_ind; intros self self' H.
  - rewrite visit_FunctionDef_eq in H. unfold visit_FunctionDef in H.
    apply bind_Ok in H as (self1 & H1 & H2).
    apply (generic_visit_lists body IH) in H2 as [Hf Hm].
    rewrite Hf, Hm. cbn [Spec.listed_functions Spec.listed_methods].
    destruct (walk_has_ClassDef (FunctionDef name a body returns)) eqn:E;
      simpl in H1.
    + injection H1 as <-. split; reflexivity.
    + apply record_function_lists in H1 as [-> ->].
      rewrite <- app_assoc. split; reflexivity.
  - rewrite visit_AsyncFunctionDef_eq in H.
    apply (generic_visit_lists body IH) in H. exact H.
  - rewrite visit_ClassDef_eq in H. unfold visit_ClassDef in H.
    apply bind_Ok in H as (self1 & H1 & H2).
    apply (generic_visit_lists body IH) in H2 as [Hf Hm].
    apply record_methods_lists in H1 as [Hf1 Hm1].
    rewrite Hf, Hm, Hf1, Hm1. simpl. rewrite <- app_assoc.
    split; reflexivity.
  - injection H as <-. simpl. rewrite !app_nil_r. split; reflexivity.
  - rewrite visit_OtherStmt_eq in H.
    apply (generic_visit_lists children IH) in H. exact H.
Qed.

Lemma visit_tree_lists tree self :
  generic_visit has_unparse unparse tree ASTAnalyzer_init = Ok self ->
  functions self = flat_map Spec.listed_functions tree
  /\ methods self = flat_map Spec.listed_methods tree.
Proof.
  intros H. apply generic_visit_lists in H; [exact H|].
  apply Forall_forall. intros node _. apply visit_lists.
Qed.

End Listing.

(** C1.  The claim has every function definition in exactly one category:
    a method iff directly inside a class body, a top-level function iff
    nested in no class and no function, and nothing for a function nested in
    a function.  [visit_FunctionDef] tests the descendants of the node where
    its comment speaks of methods: on [class C] with the method [m], the
    method is reported as the method [C.m] and again as the function [m]; on
    [def f] with the local [def g], [g] is reported as a function; and the
    top-level [def f] around a local class is not reported at all. *)
Theorem C1_methods_and_nested_functions_listed_as_functions :
  forall (has_unparse : bool) (unparse : expr -> result string),
    (exists self,
        generic_visit has_unparse unparse Examples.class_with_method
                      ASTAnalyzer_init = Ok self
        /\ methods self = ["C.m"%string]
        /\ functions self = ["m"%string]
        /\ map fi_class_name (method_details self) = [Some "C"%string]
        /\ map fi_class_name (function_details self) = [None])
    /\ (exists self,
           generic_visit has_unparse unparse Examples.nested_function
                         ASTAnalyzer_init = Ok self
           /\ functions self = ["f"%string; "g"%string])
    /\ (exists self,
           generic_visit has_unparse unparse Examples.function_with_local_class
                         ASTAnalyzer_init = Ok self
           /\ classes self = ["K"%string]
           /\ functions self = []
           /\ methods self = []).
Proof.
  intros has_unparse unparse.
  split; [|split]; eexists; (split; [reflexivity|]); simpl; auto.
Qed.

(** ** Default flags *)

(** C2.  The claim has the default flag on the last K positional parameters
    and on the keyword-only ones, and never on a variadic parameter.  For
    [def f(a=1, /, b=2, **kw)] the sweep starts at index [1 - 2 = -1], which
    Python reads from the end of the list: the entry of [**kw] gets its
    default flag set. *)
Theorem C2_variadic_keyword_entry_marked_default :
  forall (has_unparse : bool) (unparse : expr -> result string),
    exists info,
      _extract_function_info has_unparse unparse "f" Examples.posonly_default_kw
                             [pass] None None = Ok info
      /\ map (fun p => (ai_name p, get_flag (ai_kwargs p), ai_default p))
             (fi_args info)
         = [("b"%string, false, true); ("kw"%string, true, true)].
Proof.
  intros has_unparse unparse. eexists. split; reflexivity.
Qed.

(** ** The parameter list *)

(** C3.  The claim counts one descriptor per declared parameter.  The four
    passes never read [posonlyargs]: for [def f(a, /, b)] the list holds [b]
    alone, one entry for two positional parameters; and for [def f(a=1, /)]
    the sweep indexes the empty list at [-1] and raises, so that no list is
    produced at all. *)
Theorem C3_positional_only_parameters_not_listed :
  forall (has_unparse : bool) (unparse : expr -> result string),
    (exists info,
        _extract_function_info has_unparse unparse "f"
                               Examples.posonly_then_positional [pass] None None
        = Ok info
        /\ map arg_name (posonlyargs Examples.posonly_then_positional
                         ++ args Examples.posonly_then_positional)
           = ["a"%string; "b"%string]
        /\ map ai_name (fi_args info) = ["b"%string])
    /\ _extract_function_info has_unparse unparse "f"
                              Examples.posonly_with_default [pass] None None
       = Raise IndexError.
Proof.
  intros has_unparse unparse. split.
  - eexists. repeat split; reflexivity.
  - reflexivity.
Qed.

(** ** Documentation flag and text *)

Lemma get_docstring_cleandoc (body : list stmt) :
  get_docstring body = Py.cleandoc <$> Spec.leading_string_literal body.
Proof.
  destruct body as [|[| | |[| | |[|]|]|] rest]; reflexivity.
Qed.

Lemma truthy_nonempty (s : string) : Py.truthy s = true <-> s <> EmptyString.
Proof. destruct s; simpl; split; congruence. Qed.

(** C4, as amended.  The flag is set iff the body opens with a bare string
    literal whose cleaned text is not empty, and the reported text is the
    text of that literal cleaned as [inspect.cleandoc] does: tabs expanded,
    first line stripped on the left, the common indentation of the other
    lines removed, empty lines dropped at both ends. *)
Theorem C4_documentation_flag_and_text :
  forall (has_unparse : bool) (unparse : expr -> result string)
         name a body returns class_name info,
    _extract_function_info has_unparse unparse name a body returns class_name
    = Ok info ->
    (fi_has_docstring info = true
     <-> exists text, Spec.leading_string_literal body = Some text
                      /\ Py.cleandoc text <> EmptyString)
    /\ fi_docstring info = Py.cleandoc <$> Spec.leading_string_literal body.
Proof.
  intros has_unparse unparse name a body returns class_name info H.
  apply extract_Ok_fields in H as (_ & _ & Hdoc & Hhas & _).
  rewrite get_docstring_cleandoc in Hdoc, Hhas. split; [|exact Hdoc].
  rewrite Hhas. destruct (Spec.leading_string_literal body) as [text|]; simpl.
  - rewrite truthy_nonempty. split.
    + intros Hne. exists text. split; [reflexivity | exact Hne].
    + intros (text' & [= <-] & Hne). exact Hne.
  - split; [discriminate|]. intros (text & Habs & _). discriminate Habs.
Qed.

Lemma C4_documentation_flag_and_text_witness :
  exists info,
    _extract_function_info true Examples.unparse_text "f" Examples.no_args
                           Examples.body_trailing_blanks None None = Ok info
    /\ (fi_has_docstring info = true
        <-> exists text,
            Spec.leading_string_literal Examples.body_trailing_blanks = Some text
            /\ Py.cleandoc text <> EmptyString)
    /\ fi_docstring info
       = Py.cleandoc <$> Spec.leading_string_literal Examples.body_trailing_blanks.
Proof.
  eexists. split; [reflexivity|].
  apply (C4_documentation_flag_and_text true Examples.unparse_text "f"
           Examples.no_args Examples.body_trailing_blanks None None).
  reflexivity.
Defined.

(** C4 as stated fails twice.  A body that opens with the empty string
    literal has a bare string literal as its first statement and no
    documentation flag; and the text reported for the literal [desc] followed
    by two blanks keeps the blanks, where trimming each line removes them. *)
Lemma C4_empty_literal_not_flagged :
  (exists info,
      _extract_function_info true Examples.unparse_text "f" Examples.no_args
                             Examples.body_empty_literal None None = Ok info
      /\ Spec.leading_string_literal Examples.body_empty_literal = Some EmptyString
      /\ fi_has_docstring info = false)
  /\ (exists info,
         _extract_function_info true Examples.unparse_text "f" Examples.no_args
                                Examples.body_trailing_blanks None None = Ok info
         /\ fi_has_docstring info = true
         /\ fi_docstring info = Some "desc  "%string
         /\ Spec.trim_each_line "desc  " = "desc"%string).
Proof.
  split; eexists; repeat split; reflexivity.
Qed.

(** ** Baseline docstring *)

(** C5.  For every name and every list of entries the baseline docstring is
    the name, then (unless the list is empty) a blank line and the ["Args:"]
    section with one line per entry in list order, in the format of the
    entry's kind, then a blank line and the ["Returns:"] section with its
    placeholder; with an empty list the text after the name is the blank
    line and the ["Returns:"] section.  Every record the extraction returns
    holds this text for its own name and entries, whatever its body and its
    documentation flag. *)
Theorem C5_baseline_docstring_layout :
  forall (has_unparse : bool) (unparse : expr -> result string)
         name a body returns class_name,
    (forall params,
        _generate_baseline_docstring name params class_name
        = Spec.baseline_layout name params)
    /\ _generate_baseline_docstring name [] class_name
       = (name ++ Py.nl ++ Py.nl ++ "Returns:" ++ Py.nl
            ++ "    Any: Description of return value")%string
    /\ (forall info,
           _extract_function_info has_unparse unparse name a body returns
                                  class_name = Ok info ->
           fi_baseline_docstring info
           = Spec.baseline_layout name (fi_args info)).
Proof.
  intros has_unparse unparse name a body returns class_name.
  split; [|split].
  - intros params. apply generate_baseline_layout.
  - reflexivity.
  - intros info H.
    apply extract_Ok_fields in H as (_ & _ & _ & _ & _ & Hbase).
    rewrite Hbase. apply generate_baseline_layout.
Qed.

Lemma C5_baseline_docstring_layout_witness :
  exists info,
    _extract_function_info true Examples.unparse_text "f" Examples.scenario_A
                           [pass] None None = Ok info
    /\ fi_has_docstring info = false
    /\ fi_baseline_docstring info = Spec.baseline_layout "f" (fi_args info).
Proof.
  eexists. split; [reflexivity|]. split; [reflexivity|].
  apply (C5_baseline_docstring_layout true Examples.unparse_text "f"
           Examples.scenario_A [pass] None None).
  reflexivity.
Defined.

(** ** Comment statistics *)

Lemma count_token_step (c : counters) (t : token) :
  count_token c t
  = mk_counters
      (c_single c + if Spec.is_comment t then 1 else 0)
      (c_multi c + if Spec.is_triple_quoted_literal t then token_lines t else 0)
      (c_docstring c + if Spec.documentation_like t then token_lines t else 0).
Proof.
  unfold count_token, Spec.documentation_like, Spec.is_triple_quoted_literal,
    Spec.is_comment, Spec.inner_content, literal_content, docstring_like.
  destruct c as [s m d]. simpl.
  destruct (tok_type t); simpl; rewrite ?Nat.add_0_r; try reflexivity.
  destruct (is_triple_quoted (Py.strip (tok_string t))); simpl;
    rewrite ?Nat.add_0_r; try reflexivity.
  destruct (Py.truthy _ && negb _); rewrite ?Nat.add_0_r; reflexivity.
Qed.

Lemma count_line_step (c : counters) (line : string) :
  count_line c line
  = mk_counters
      (c_single c + if Spec.comment_line line then 1 else 0)
      (c_multi c + if Spec.literal_line line then 1 else 0)
      (c_docstring c).
Proof.
  unfold count_line, Spec.literal_line, Spec.comment_line.
  destruct c as [s m d]. simpl.
  destruct (Py.startswith (Py.strip line) "#"); simpl;
    rewrite ?Nat.add_0_r; try reflexivity.
  destruct (Py.startswith _ triple_double || Py.startswith _ triple_single);
    rewrite ?Nat.add_0_r; reflexivity.
Qed.

Lemma fold_count_token (tokens : list token) :
  forall c : counters,
    fold_left count_token tokens c
    = mk_counters
        (c_single c + length (List.filter Spec.is_comment tokens))
        (c_multi c + Spec.lines_of Spec.is_triple_quoted_literal tokens)
        (c_docstring c + Spec.lines_of Spec.documentation_like tokens).
Proof.
  unfold Spec.lines_of.
  induction tokens as [|t tokens IH]; intros c; simpl.
  - destruct c. simpl. rewrite !Nat.add_0_r. reflexivity.
  - rewrite IH, count_token_step. simpl.
    destruct (Spec.is_comment t), (Spec.is_triple_quoted_literal t),
             (Spec.documentation_like t); simpl; f_equal; lia.
Qed.

Lemma fold_count_line (lines : list string) :
  forall c : counters,
    fold_left count_line lines c
    = mk_counters
        (c_single c + length (List.filter Spec.comment_line lines))
        (c_multi c + length (List.filter Spec.literal_line lines))
        (c_docstring c).
Proof.
  induction lines as [|l lines IH]; intros c; simpl.
  - destruct c. simpl. rewrite !Nat.add_0_r. reflexivity.
  - rewrite IH, count_line_step. simpl.
    destruct (Spec.comment_line l), (Spec.literal_line l); simpl; f_equal; lia.
Qed.

(** The four numbers of [count_all_comments] as sums over the tokens the
    tokenizer yielded and over the lines scanned after a failure. *)
Lemma count_all_comments_sums (generate_tokens : string -> list token * bool)
      (source_code : string) :
  let tokens := (generate_tokens source_code).1 in
  let lines := Spec.scanned_lines (generate_tokens source_code).2 source_code in
  count_all_comments generate_tokens source_code
  = let single := length (List.filter Spec.is_comment tokens)
                  + length (List.filter Spec.comment_line lines) in
    let multi := Spec.lines_of Spec.is_triple_quoted_literal tokens
                 + length (List.filter Spec.literal_line lines) in
    mk_CommentCounts single multi
                     (Spec.lines_of Spec.documentation_like tokens)
                     (single + multi).
Proof.
  unfold count_all_comments, Spec.scanned_lines.
  destruct (generate_tokens source_code) as [tokens raised]. simpl.
  rewrite fold_count_token. simpl. destruct raised.
  - rewrite fold_count_line. reflexivity.
  - simpl. rewrite !Nat.add_0_r. reflexivity.
Qed.


(** C6, as amended.  Every COMMENT token adds one to the single-line count;
    every STRING token whose trimmed text begins and ends with the same
    triple-quote delimiter adds the number of lines it spans to the
    multi-line count, and the same number to the documentation-like count
    iff its inner content, quotes stripped and then trimmed of surrounding
    whitespace, is non-empty and not purely numeric; the lines scanned after
    a tokenizer failure add to the first two counts only; the total is the
    single-line count plus the multi-line count. *)
Theorem C6_comment_statistics :
  forall (generate_tokens : string -> list token * bool) (source_code : string),
    let tokens := (generate_tokens source_code).1 in
    let lines := Spec.scanned_lines (generate_tokens source_code).2 source_code in
    let counts := count_all_comments generate_tokens source_code in
    cc_single_line_comments counts
    = length (List.filter Spec.is_comment tokens)
      + length (List.filter Spec.comment_line lines)
    /\ cc_multi_line_comments counts
       = Spec.lines_of Spec.is_triple_quoted_literal tokens
         + length (List.filter Spec.literal_line lines)
    /\ cc_docstring_lines counts = Spec.lines_of Spec.documentation_like tokens
    /\ cc_total_comments counts
       = cc_single_line_comments counts + cc_multi_line_comments counts.
Proof.
  intros generate_tokens source_code. cbv zeta.
  rewrite count_all_comments_sums. simpl. repeat split; reflexivity.
Qed.

(** C6 as stated fails on a triple-quoted literal that holds three blanks:
    its inner content is non-empty and not purely numeric, it adds its one
    line to the multi-line count, and nothing to the documentation-like
    count.  The same happens with the literal that holds [ 42 ]. *)
Lemma C6_blank_literal_not_documentation_like :
  (Spec.documentation_like_as_stated Examples.blank_literal = true
   /\ count_token (mk_counters 0 0 0) Examples.blank_literal
      = mk_counters 0 1 0)
  /\ (Spec.documentation_like_as_stated Examples.padded_number_literal = true
      /\ count_token (mk_counters 0 0 0) Examples.padded_number_literal
         = mk_counters 0 1 0).
Proof. repeat split; reflexivity. Qed.


(** ** The counters of the visitor *)

Section VisitorInvariant.

Variable has_unparse : bool.
Variable unparse : expr -> result string.

Lemma record_function_counters name a body returns self self' :
  Spec.counters_match_records self ->
  record_function has_unparse unparse name a body returns self = Ok self' ->
  Spec.counters_match_records self'.
Proof.
  unfold Spec.counters_match_records, record_function. intros [Hf Hm] H.
  apply bind_Ok in H as (info & _ & H). injection H as <-. simpl.
  rewrite length_app. simpl.
  destruct (fi_has_docstring info); split; lia.
Qed.

Lemma record_method_counters class_name item self self' :
  Spec.counters_match_records self ->
  record_method has_unparse unparse class_name item self = Ok self' ->
  Spec.counters_match_records self'.
Proof.
  unfold Spec.counters_match_records. intros [Hf Hm] H.
  destruct item; simpl in H; try (injection H as <-; split; assumption).
  apply bind_Ok in H as (info & _ & H). injection H as <-. simpl.
  rewrite length_app. simpl.
  destruct (fi_has_docstring info); split; lia.
Qed.

Lemma record_methods_counters class_name body :
  forall self self',
    Spec.counters_match_records self ->
    record_methods has_unparse unparse class_name body self = Ok self' ->
    Spec.counters_match_records self'.
Proof.
  induction body as [|item body IH]; simpl; intros self self' Hinv H.
  - injection H as <-. exact Hinv.
  - apply bind_Ok in H as (self1 & H1 & H2).
    eapply IH; [|exact H2]. eapply record_method_counters; eassumption.
Qed.

Lemma generic_visit_counters nodes :
  Forall (fun node => forall self self',
              Spec.counters_match_records self ->
              visit has_unparse unparse node self = Ok self' ->
              Spec.counters_match_records self') nodes ->
  forall self self',
    Spec.counters_match_records self ->
    generic_visit has_unparse unparse nodes self = Ok self' ->
    Spec.counters_match_records self'.
Proof.
  induction 1 as [|node nodes Hnode _ IH]; simpl; intros self self' Hinv H.
  - injection H as <-. exact Hinv.
  - apply bind_Ok in H as (self1 & H1 & H2).
    eapply IH; [|exact H2]. eapply Hnode; eassumption.
Qed.

Lemma visit_counters node :
  forall self self',
    Spec.counters_match_records self ->
    visit has_unparse unparse node self = Ok self' ->
    Spec.counters_match_records self'.
Proof.
  induction node as [name a body returns IH|name a body returns IH
                     |name body IH|value|children IH]
    using stmt_nested_ind; intros self self' Hinv H.
  - rewrite visit_FunctionDef_eq in H. unfold visit_FunctionDef in H.
    apply bind_Ok in H as (self1 & H1 & H2).
    eapply generic_visit_counters; [exact IH| |exact H2].
    destruct (negb _).
    + eapply record_function_counters; eassumption.
    + injection H1 as <-. exact Hinv.
  - rewrite visit_AsyncFunctionDef_eq in H.
    eapply generic_visit_counters; eassumption.
  - rewrite visit_ClassDef_eq in H. unfold visit_ClassDef in H.
    apply bind_Ok in H as (self1 & H1 & H2).
    eapply generic_visit_counters; [exact IH| |exact H2].
    eapply record_methods_counters; [|exact H1].
    destruct Hinv as [Hf Hm]. split; assumption.
  - injection H as <-. exact Hinv.
  - rewrite visit_OtherStmt_eq in H.
    eapply generic_visit_counters; eassumption.
Qed.

Lemma visit_tree_counters tree self :
  generic_visit has_unparse unparse tree ASTAnalyzer_init = Ok self ->
  Spec.counters_match_records self.
Proof.
  apply generic_visit_counters.
  - apply Forall_forall. intros node _. apply visit_counters.
  - split; reflexivity.
Qed.

End VisitorInvariant.

(** ** Rounding to a [float] *)

Lemma pow2_pos (e : Z) : (0 < Float.pow2 e)%Q.
Proof. apply Qpower_0_lt. reflexivity. Qed.

Lemma pow2_succ (e : Z) : (Float.pow2 (e + 1) == Float.pow2 e * 2)%Q.
Proof.
  unfold Float.pow2. rewrite Qpower_plus by discriminate. reflexivity.
Qed.

Lemma pow2_le (e e' : Z) : (e <= e')%Z -> (Float.pow2 e <= Float.pow2 e')%Q.
Proof.
  intros H. apply Qpower_le_compat_l; [exact H | discriminate].
Qed.

Lemma pow2_53 : (Float.pow2 53 == inject_Z (2 ^ 53))%Q.
Proof. reflexivity. Qed.

Lemma pow2_52 : (Float.pow2 53 / 2 == inject_Z (2 ^ 52))%Q.
Proof. reflexivity. Qed.

Lemma scaled_le (x y : Q) (e : Z) :
  (x <= y)%Q -> (Float.scaled x e <= Float.scaled y e)%Q.
Proof.
  intros H. unfold Float.scaled, Qdiv. apply Qmult_le_compat_r; [exact H|].
  apply Qinv_le_0_compat. apply Qlt_le_weak. apply pow2_pos.
Qed.

Lemma scaled_succ (x : Q) (e : Z) :
  (Float.scaled x (e + 1) == Float.scaled x e / 2)%Q.
Proof.
  unfold Float.scaled. rewrite pow2_succ. field.
  intros C. pose proof (pow2_pos e) as H. rewrite C in H. discriminate H.
Qed.

Lemma round_half_even_bounds (q : Q) :
  (Qfloor q <= Float.round_half_even q <= Qfloor q + 1)%Z.
Proof.
  unfold Float.round_half_even.
  destruct (q - inject_Z (Qfloor q) ?= 1 # 2)%Q; [destruct (Z.even _)| |]; lia.
Qed.

Lemma round_half_even_lower (q : Q) (n : Z) :
  (inject_Z n <= q)%Q -> (n <= Float.round_half_even q)%Z.
Proof.
  intros H. apply Qfloor_resp_le in H. rewrite Qfloor_Z in H.
  pose proof (round_half_even_bounds q). lia.
Qed.

Lemma round_half_even_upper (q : Q) (n : Z) :
  (q <= inject_Z n)%Q -> (Float.round_half_even q <= n)%Z.
Proof.
  intros H. pose proof (round_half_even_bounds q) as Hb.
  pose proof (Qfloor_resp_le _ _ H) as Hf. rewrite Qfloor_Z in Hf.
  destruct (Z.eq_dec (Qfloor q) n) as [E|NE]; [|lia].
  unfold Float.round_half_even. rewrite E.
  destruct (Qcompare_spec (q - inject_Z n) (1 # 2)) as [Eq|Lq|Gq];
    [exfalso; lra | lia | exfalso; lra].
Qed.

Lemma round_half_even_le (x y : Q) :
  (x <= y)%Q -> (Float.round_half_even x <= Float.round_half_even y)%Z.
Proof.
  intros H. pose proof (Qfloor_resp_le _ _ H) as Hf.
  pose proof (round_half_even_bounds x) as Hx.
  pose proof (round_half_even_bounds y) as Hy.
  destruct (Z.eq_dec (Qfloor x) (Qfloor y)) as [E|NE]; [|lia].
  unfold Float.round_half_even. rewrite <- E.
  destruct (Qcompare_spec (x - inject_Z (Qfloor x)) (1 # 2)) as [Ex|Lx|Gx];
    destruct (Qcompare_spec (y - inject_Z (Qfloor x)) (1 # 2)) as [Ey|Ly|Gy];
    try destruct (Z.even (Qfloor x)); try lia; exfalso; lra.
Qed.

Lemma exponent_from_ge (fuel : nat) :
  forall e x, (e <= Float.exponent_from fuel e x)%Z.
Proof.
  induction fuel as [|fuel IH]; intros e x; cbn [Float.exponent_from]; [lia|].
  destruct (Qle_bool _ _); [|lia]. specialize (IH (e + 1)%Z x). lia.
Qed.

(** Below the exponent found, the significand was too large. *)
Lemma exponent_from_passed (fuel : nat) :
  forall e x,
    (Float.pow2 53 <= Float.scaled x (e - 1))%Q ->
    (Float.pow2 53
     <= Float.scaled x (Float.exponent_from fuel e x - 1))%Q.
Proof.
  induction fuel as [|fuel IH]; intros e x H; cbn [Float.exponent_from];
    [exact H|].
  destruct (Qle_bool _ _) eqn:T; [|exact H].
  apply IH. replace (e + 1 - 1)%Z with e by lia. apply Qle_bool_iff. exact T.
Qed.

(** The exponent grows with the number; where it grows strictly, the smaller
    number has its significand below [2 ^ 53] and the larger one had too
    large a significand one exponent lower. *)
Lemma exponent_from_le (fuel : nat) :
  forall e x y,
    (x <= y)%Q ->
    let ex := Float.exponent_from fuel e x in
    let ey := Float.exponent_from fuel e y in
    (ex <= ey)%Z
    /\ ((ex < ey)%Z ->
        (Float.scaled x ex < Float.pow2 53)%Q
        /\ (Float.pow2 53 <= Float.scaled y (ey - 1))%Q).
Proof.
  induction fuel as [|fuel IH]; intros e x y Hxy; cbn [Float.exponent_from];
    cbv zeta; [lia|].
  destruct (Qle_bool (Float.pow2 53) (Float.scaled x e)) eqn:Tx.
  - assert (Qle_bool (Float.pow2 53) (Float.scaled y e) = true) as ->.
    { apply Qle_bool_iff. apply Qle_bool_iff in Tx.
      apply Qle_trans with (1 := Tx). apply scaled_le. exact Hxy. }
    apply (IH (e + 1)%Z x y Hxy).
  - destruct (Qle_bool (Float.pow2 53) (Float.scaled y e)) eqn:Ty; [|lia].
    pose proof (exponent_from_ge fuel (e + 1) y) as Hge.
    split; [lia|]. intros _. split.
    + apply Qnot_le_lt. intros C. apply Qle_bool_iff in C. congruence.
    + apply exponent_from_passed. replace (e + 1 - 1)%Z with e by lia.
      apply Qle_bool_iff. exact Ty.
Qed.

(** Rounding keeps the order. *)
Lemma binary64_le (x y : Q) :
  (x <= y)%Q -> (Float.binary64 x <= Float.binary64 y)%Q.
Proof.
  intros Hxy. unfold Float.binary64, Float.exponent.
  pose proof (exponent_from_le 2045 Float.emin x y Hxy) as [Hle Hlt].
  cbv zeta in Hle, Hlt.
  set (ex := Float.exponent_from 2045 Float.emin x) in *.
  set (ey := Float.exponent_from 2045 Float.emin y) in *.
  destruct (Z.eq_dec ex ey) as [E|NE].
  - rewrite <- E. apply Qmult_le_compat_r.
    + rewrite <- Zle_Qle. apply round_half_even_le. apply scaled_le. exact Hxy.
    + apply Qlt_le_weak. apply pow2_pos.
  - destruct Hlt as [Hx Hy]; [lia|].
    assert (Float.round_half_even (Float.scaled x ex) <= 2 ^ 53)%Z as Hrx.
    { apply round_half_even_upper. rewrite <- pow2_53. apply Qlt_le_weak.
      exact Hx. }
    assert (2 ^ 52 <= Float.round_half_even (Float.scaled y ey))%Z as Hry.
    { apply round_half_even_lower. rewrite <- pow2_52.
      replace ey with (ey - 1 + 1)%Z at 1 by lia. rewrite scaled_succ.
      apply Qmult_le_compat_r; [exact Hy | discriminate]. }
    apply Qle_trans with (y := (inject_Z (2 ^ 53) * Float.pow2 ex)%Q).
    { apply Qmult_le_compat_r; [rewrite <- Zle_Qle; exact Hrx|].
      apply Qlt_le_weak. apply pow2_pos. }
    apply Qle_trans with (y := (inject_Z (2 ^ 52) * Float.pow2 ey)%Q).
    { apply Qle_trans with (y := (inject_Z (2 ^ 52) * Float.pow2 (ex + 1))%Q).
      - rewrite pow2_succ. rewrite <- pow2_53, <- pow2_52.
        apply Qle_lteq. right. field.
      - rewrite !(Qmult_comm (inject_Z (2 ^ 52))).
        apply Qmult_le_compat_r; [apply pow2_le; lia | discriminate]. }
    apply Qmult_le_compat_r; [rewrite <- Zle_Qle; exact Hry|].
    apply Qlt_le_weak. apply pow2_pos.
Qed.

Lemma binary64_upper (x c : Q) :
  (Float.binary64 c == c)%Q -> (x <= c)%Q -> (Float.binary64 x <= c)%Q.
Proof.
  intros Hc H. apply Qle_trans with (y := Float.binary64 c).
  - apply binary64_le. exact H.
  - rewrite Hc. apply Qle_refl.
Qed.

Lemma binary64_lower (x c : Q) :
  (Float.binary64 c == c)%Q -> (c <= x)%Q -> (c <= Float.binary64 x)%Q.
Proof.
  intros Hc H. apply Qle_trans with (y := Float.binary64 c).
  - rewrite Hc. apply Qle_refl.
  - apply binary64_le. exact H.
Qed.

Lemma binary64_eq (x y : Q) :
  (x == y)%Q -> (Float.binary64 x == Float.binary64 y)%Q.
Proof.
  intros H. apply Qle_antisym; apply binary64_le; rewrite H; apply Qle_refl.
Qed.

(** Numbers that are floats. *)
Lemma binary64_0 : (Float.binary64 0 == 0)%Q.
Proof. vm_compute. reflexivity. Qed.

Lemma binary64_1 : (Float.binary64 1 == 1)%Q.
Proof. vm_compute. reflexivity. Qed.

Lemma binary64_100 : (Float.binary64 100 == 100)%Q.
Proof. vm_compute. reflexivity. Qed.

Lemma binary64_smallest :
  (Float.binary64 (Float.pow2 Float.emin) == Float.pow2 Float.emin)%Q.
Proof. vm_compute. reflexivity. Qed.

Lemma binary64_below_1 :
  (Float.binary64 (1 - Float.pow2 (-53)) == 1 - Float.pow2 (-53))%Q.
Proof. vm_compute. reflexivity. Qed.

Lemma binary64_below_100 :
  (Float.binary64 ((1 - Float.pow2 (-53)) * 100) < 100)%Q.
Proof. vm_compute. reflexivity. Qed.

Lemma smallest_times_bound :
  (Float.pow2 Float.emin * inject_Z (2 ^ 1074) == 1)%Q.
Proof. vm_compute. reflexivity. Qed.

(** ** Docstring coverage *)

Lemma Qnat_pos (t : nat) : 0 < t -> (0 < Qnat t)%Q.
Proof.
  intros H. unfold Qnat. change 0%Q with (inject_Z 0). rewrite <- Zlt_Qlt. lia.
Qed.

Lemma Qnat_le (w t : nat) : w <= t -> (Qnat w <= Qnat t)%Q.
Proof. intros H. unfold Qnat. rewrite <- Zle_Qle. lia. Qed.

Lemma quotient_bounds (w t : nat) :
  w <= t -> 0 < t -> (0 <= Qnat w / Qnat t)%Q /\ (Qnat w / Qnat t <= 1)%Q.
Proof.
  intros Hwt Ht. pose proof (Qnat_pos t Ht) as Hp.
  pose proof (Qnat_le w t Hwt) as Hle.
  pose proof (Qnat_le 0 w ltac:(lia)) as H0.
  change (Qnat 0) with 0%Q in H0.
  split.
  - apply Qle_shift_div_l; [exact Hp | lra].
  - apply Qle_shift_div_r; [exact Hp | lra].
Qed.

Lemma coverage_formula (w t : nat) :
  0 < t ->
  (coverage w t
   == Float.binary64 (Float.binary64 (Qnat w / Qnat t) * 100))%Q.
Proof.
  intros Ht. unfold coverage.
  destruct (Nat.ltb_spec 0 t) as [_|C]; [reflexivity | lia].
Qed.

(** [1 / 3 * 100] is [33.33333333333333], [2 / 3 * 100] is
    [66.66666666666666] and [7 / 25 * 100] is [28.000000000000004]. *)
Lemma coverage_1_of_3 :
  (coverage 1 3 == 2345624805922133 # 70368744177664)%Q.
Proof. vm_compute. reflexivity. Qed.

Lemma coverage_2_of_3 :
  (coverage 2 3 == 2345624805922133 # 35184372088832)%Q.
Proof. vm_compute. reflexivity. Qed.

Lemma coverage_7_of_25 :
  (coverage 7 25 == 7881299347898369 # 281474976710656)%Q.
Proof. vm_compute. reflexivity. Qed.

Lemma coverage_bounds (w t : nat) :
  w <= t -> (0 <= coverage w t)%Q /\ (coverage w t <= 100)%Q.
Proof.
  intros Hwt. unfold coverage.
  destruct (Nat.ltb_spec 0 t) as [Ht|_]; [|split; discriminate].
  destruct (quotient_bounds w t Hwt Ht) as [Hq0 Hq1].
  apply binary64_le in Hq0, Hq1. rewrite binary64_0 in Hq0.
  rewrite binary64_1 in Hq1.
  set (q := Float.binary64 (Qnat w / Qnat t)) in *.
  split.
  - apply (binary64_lower _ 0 binary64_0). lra.
  - apply (binary64_upper _ 100 binary64_100). lra.
Qed.

(** With a callable that has a docstring the quotient is at least
    [1 / t]: it does not round to zero as long as that is a float. *)
Lemma coverage_zero (w t : nat) :
  w <= t -> (Z.of_nat t <= 2 ^ 1074)%Z -> (coverage w t == 0)%Q <-> w = 0.
Proof.
  intros Hwt Hbound. unfold coverage.
  destruct (Nat.ltb_spec 0 t) as [Ht|Ht]; [|split; [lia | reflexivity]].
  pose proof (Qnat_pos t Ht) as Hp.
  split.
  - intros Hc. destruct w as [|w']; [reflexivity|]. exfalso.
    pose proof (pow2_pos Float.emin) as Hs.
    pose proof smallest_times_bound as Hsb.
    pose proof binary64_smallest as Hfix.
    assert (Qnat t <= inject_Z (2 ^ 1074))%Q as Hb.
    { unfold Qnat. rewrite <- Zle_Qle. exact Hbound. }
    assert (1 <= Qnat (S w'))%Q as Hw.
    { change 1%Q with (Qnat 1). apply Qnat_le. lia. }
    set (tiny := Float.pow2 Float.emin) in *.
    set (big := inject_Z (2 ^ 1074)) in *.
    assert (tiny <= Qnat (S w') / Qnat t)%Q as Hq.
    { apply Qle_shift_div_l; [exact Hp|].
      apply Qle_trans with (y := (tiny * big)%Q); [|lra].
      rewrite !(Qmult_comm tiny). apply Qmult_le_compat_r; [exact Hb | lra]. }
    apply binary64_le in Hq. rewrite Hfix in Hq.
    set (q := Float.binary64 (Qnat (S w') / Qnat t)) in *.
    assert (tiny <= q * 100)%Q as Hq' by lra.
    apply binary64_le in Hq'. rewrite Hfix in Hq'. lra.
  - intros ->.
    assert (Qnat 0 / Qnat t == 0)%Q as Hq.
    { unfold Qdiv. change (Qnat 0) with 0%Q. apply Qmult_0_l. }
    apply binary64_eq in Hq. rewrite binary64_0 in Hq.
    apply Qle_antisym.
    + apply (binary64_upper _ 0 binary64_0). lra.
    + apply (binary64_lower _ 0 binary64_0). lra.
Qed.

(** With a callable that has no docstring the quotient is at most
    [1 - 1 / t]: it stays below the float before [1] as long as [t] is at
    most [2 ^ 53], and its product with [100] rounds below [100]. *)
Lemma coverage_full (w t : nat) :
  w <= t -> (Z.of_nat t <= 2 ^ 53)%Z ->
  (coverage w t == 100)%Q <-> 0 < t /\ w = t.
Proof.
  intros Hwt Hbound. unfold coverage.
  destruct (Nat.ltb_spec 0 t) as [Ht|Ht].
  2: { split; [intros C; discriminate C | lia]. }
  pose proof (Qnat_pos t Ht) as Hp.
  split.
  - intros Hc. split; [exact Ht|].
    destruct (Nat.eq_dec w t) as [E|NE]; [exact E|]. exfalso.
    assert (Qnat w + 1 <= Qnat t)%Q as Hw.
    { change 1%Q with (Qnat 1). unfold Qnat. rewrite <- inject_Z_plus.
      rewrite <- Zle_Qle. lia. }
    assert (Qnat t <= inject_Z (2 ^ 53))%Q as Hb.
    { unfold Qnat. rewrite <- Zle_Qle. exact Hbound. }
    assert (Qnat w / Qnat t <= 1 - Float.pow2 (-53))%Q as Hq.
    { apply Qle_shift_div_r; [exact Hp|].
      change (Float.pow2 (-53)) with (1 # 9007199254740992)%Q.
      change (inject_Z (2 ^ 53)) with (9007199254740992 # 1)%Q in Hb. lra. }
    apply binary64_le in Hq. rewrite binary64_below_1 in Hq.
    set (q := Float.binary64 (Qnat w / Qnat t)) in *.
    assert (q * 100 <= (1 - Float.pow2 (-53)) * 100)%Q as Hq' by lra.
    apply binary64_le in Hq'. pose proof binary64_below_100 as Hlt. lra.
  - intros [_ ->].
    assert (Qnat t / Qnat t == 1)%Q as Hq.
    { apply Qmult_inv_r. intros C. rewrite C in Hp. discriminate Hp. }
    apply binary64_eq in Hq. rewrite binary64_1 in Hq.
    apply Qle_antisym.
    + apply (binary64_upper _ 100 binary64_100). lra.
    + apply (binary64_lower _ 100 binary64_100). lra.
Qed.

(** ** [analyze_python_code] *)

Section AnalyzeProperties.

Variable has_unparse : bool.
Variable unparse : expr -> result string.
Variable generate_tokens : string -> list token * bool.
Variable ast_parse : string -> option (list stmt).

Local Abbreviation analyze :=
  (analyze_python_code has_unparse unparse generate_tokens ast_parse).

(** A returned report comes from a parsed tree and a completed visit. *)
Lemma analyze_Ok_inv source_code r :
  analyze source_code = Ok r ->
  exists tree analyzer,
    ast_parse source_code = Some tree
    /\ generic_visit has_unparse unparse tree ASTAnalyzer_init = Ok analyzer
    /\ r = build_report analyzer (count_all_comments generate_tokens source_code).
Proof.
  unfold analyze_python_code, analyze_tree.
  destruct (ast_parse source_code) as [tree|]; [|discriminate].
  intros H. apply bind_Ok in H as (analyzer & Hvisit & H).
  injection H as <-. exists tree, analyzer. repeat split. exact Hvisit.
Qed.

(** Unparsable text raises [SyntaxError]. *)
Lemma analyze_unparsable source_code :
  ast_parse source_code = None -> analyze source_code = Raise SyntaxError.
Proof.
  unfold analyze_python_code. intros ->. reflexivity.
Qed.

(** The empty file gives a report with nothing in it but the module. *)
Lemma analyze_empty_input :
  ast_parse EmptyString = Some [] ->
  generate_tokens EmptyString = ([], false) ->
  exists r,
    analyze EmptyString = Ok r
    /\ r_classes r = [] /\ r_functions r = [] /\ r_methods r = []
    /\ r_function_details r = [] /\ r_method_details r = []
    /\ total_classes (r_counts r) = 0 /\ total_functions (r_counts r) = 0
    /\ total_methods (r_counts r) = 0 /\ total_comments (r_counts r) = 0
    /\ single_line_comments (r_counts r) = 0
    /\ multi_line_comments (r_counts r) = 0
    /\ docstring_lines (r_counts r) = 0
    /\ total_with_docstrings (r_counts r) = 0
    /\ total_without_docstrings (r_counts r) = 0
    /\ (docstring_coverage (r_counts r) == 0)%Q.
Proof.
  intros Hparse Htokens. unfold analyze_python_code, analyze_tree.
  rewrite Hparse. simpl. unfold count_all_comments. rewrite Htokens. simpl.
  eexists. split; [reflexivity|]. simpl. repeat split; reflexivity.
Qed.

End AnalyzeProperties.

(** C7, as amended.  In every report the coverage percentage is the float
    [with / (with + without) * 100], the quotient of the two counts and its
    product with one hundred each rounded to the nearest float, and zero when
    there is no callable; it lies between 0 and 100; and, for at most
    [2 ^ 1074] callables, it is zero exactly when no callable has a
    docstring, which includes the case of no callable at all. *)
Theorem C7_docstring_coverage :
  forall (has_unparse : bool) (unparse : expr -> result string)
         (generate_tokens : string -> list token * bool)
         (ast_parse : string -> option (list stmt))
         (source_code : string) (r : Report),
    analyze_python_code has_unparse unparse generate_tokens ast_parse source_code
    = Ok r ->
    let w := total_with_docstrings (r_counts r) in
    let wo := total_without_docstrings (r_counts r) in
    let c := docstring_coverage (r_counts r) in
    (0 < w + wo ->
     (c == Float.binary64 (Float.binary64 (Qnat w / Qnat (w + wo)) * 100))%Q)
    /\ (w + wo = 0 -> (c == 0)%Q)
    /\ (0 <= c)%Q /\ (c <= 100)%Q
    /\ ((Z.of_nat (w + wo) <= 2 ^ 1074)%Z -> ((c == 0)%Q <-> w = 0)).
Proof.
  intros has_unparse unparse generate_tokens ast_parse source_code r H.
  apply analyze_Ok_inv in H as (tree & analyzer & _ & Hvisit & ->).
  apply visit_tree_counters in Hvisit as [Hf Hm].
  cbn [build_report r_counts total_with_docstrings total_without_docstrings
       docstring_coverage].
  set (w := functions_with_docstrings analyzer + methods_with_docstrings analyzer).
  set (wo := functions_without_docstrings analyzer
             + methods_without_docstrings analyzer).
  replace (length (function_details analyzer) + length (method_details analyzer))
    with (w + wo) by (unfold w, wo; lia).
  assert (w <= w + wo) as Hle by lia.
  split; [|split; [|split; [|split]]].
  - apply coverage_formula.
  - intros Hz. unfold coverage. rewrite Hz. reflexivity.
  - apply (coverage_bounds w (w + wo) Hle).
  - apply (coverage_bounds w (w + wo) Hle).
  - apply (coverage_zero w (w + wo) Hle).
Qed.

Lemma C7_docstring_coverage_witness :
  exists r,
    analyze_python_code true Examples.unparse_text Samples.tokenize
                        Samples.parse Samples.src_method_and_function = Ok r
    /\ total_with_docstrings (r_counts r) = 2
    /\ total_without_docstrings (r_counts r) = 1
    /\ (docstring_coverage (r_counts r)
        == Float.binary64 (Float.binary64 (Qnat 2 / Qnat (2 + 1)) * 100))%Q
    /\ (docstring_coverage (r_counts r)
        == 2345624805922133 # 35184372088832)%Q
    /\ (0 <= docstring_coverage (r_counts r))%Q
    /\ (docstring_coverage (r_counts r) <= 100)%Q
    /\ ((docstring_coverage (r_counts r) == 0)%Q
        <-> total_with_docstrings (r_counts r) = 0).
Proof.
  eexists. split; [vm_compute; reflexivity|].
  match goal with
  | |- total_with_docstrings (r_counts ?r) = 2 /\ _ =>
      assert (analyze_python_code true Examples.unparse_text Samples.tokenize
                Samples.parse Samples.src_method_and_function = Ok r) as Hrun
        by (vm_compute; reflexivity);
      destruct (C7_docstring_coverage
                  true Examples.unparse_text Samples.tokenize Samples.parse
                  Samples.src_method_and_function r Hrun)
        as (Hformula & _ & Hlow & Hhigh & Hzero)
  end.
  split; [reflexivity|]. split; [reflexivity|].
  split; [apply Hformula; simpl; lia|].
  split; [vm_compute; reflexivity|].
  split; [exact Hlow|]. split; [exact Hhigh|].
  apply Hzero. vm_compute. discriminate.
Defined.

(** C7 as stated has the coverage at zero only when there is no callable.
    For [def f(): pass] there is one callable, without a docstring, and the
    coverage is zero. *)
Lemma C7_zero_coverage_with_one_callable :
  exists r,
    analyze_python_code true Examples.unparse_text Examples.tokenize
                        Examples.parse Examples.src_undocumented = Ok r
    /\ (docstring_coverage (r_counts r) == 0)%Q
    /\ total_with_docstrings (r_counts r)
       + total_without_docstrings (r_counts r) = 1.
Proof.
  eexists. split; [reflexivity|]. split; reflexivity.
Qed.

(** C8.  The claim has a report for every input that parses.  The text
    [def f(a=1, /): pass] parses, and the analysis of its tree raises
    [IndexError] from the defaults sweep: no report, and no syntax error. *)
Theorem C8_parsed_input_raises_IndexError :
  forall (has_unparse : bool) (unparse : expr -> result string)
         (generate_tokens : string -> list token * bool)
         (ast_parse : string -> option (list stmt)),
    ast_parse Examples.src_posonly_with_default
    = Some Examples.tree_posonly_with_default ->
    analyze_python_code has_unparse unparse generate_tokens ast_parse
                        Examples.src_posonly_with_default
    = Raise IndexError.
Proof.
  intros has_unparse unparse generate_tokens ast_parse Hparse.
  unfold analyze_python_code. rewrite Hparse. reflexivity.
Qed.

Lemma C8_parsed_input_raises_IndexError_witness :
  Examples.parse Examples.src_posonly_with_default
  = Some Examples.tree_posonly_with_default
  /\ analyze_python_code true Examples.unparse_text Examples.tokenize
                         Examples.parse Examples.src_posonly_with_default
     = Raise IndexError.
Proof.
  split; [reflexivity|].
  apply (C8_parsed_input_raises_IndexError true Examples.unparse_text
           Examples.tokenize Examples.parse).
  reflexivity.
Defined.

(** * Further properties of the code *)

(** ** Invariants of the visitor *)

Section VisitorKeeps.

Variable has_unparse : bool.
Variable unparse : expr -> result string.

Variable Inv : ASTAnalyzer -> Prop.

Hypothesis Inv_function : forall name a body returns self self',
    Inv self ->
    record_function has_unparse unparse name a body returns self = Ok self' ->
    Inv self'.
Hypothesis Inv_method : forall class_name item self self',
    Inv self ->
    record_method has_unparse unparse class_name item self = Ok self' ->
    Inv self'.
Hypothesis Inv_class : forall name self, Inv self -> Inv (add_class name self).

Lemma record_methods_keeps class_name body :
  forall self self',
    Inv self ->
    record_methods has_unparse unparse class_name body self = Ok self' ->
    Inv self'.
Proof.
  induction body as [|item body IH]; simpl; intros self self' Hinv H.
  - injection H as <-. exact Hinv.
  - apply bind_Ok in H as (self1 & H1 & H2).
    eapply IH; [|exact H2]. eapply Inv_method; eassumption.
Qed.

Lemma generic_visit_keeps_from nodes :
  Forall (fun node => forall self self',
              Inv self -> visit has_unparse unparse node self = Ok self' ->
              Inv self') nodes ->
  forall self self',
    Inv self -> generic_visit has_unparse unparse nodes self = Ok self' ->
    Inv self'.
Proof.
  induction 1 as [|node nodes Hnode _ IH]; simpl; intros self self' Hinv H.
  - injection H as <-. exact Hinv.
  - apply bind_Ok in H as (self1 & H1 & H2).
    eapply IH; [|exact H2]. eapply Hnode; eassumption.
Qed.

Lemma visit_keeps node :
  forall self self',
    Inv self -> visit has_unparse unparse node self = Ok self' -> Inv self'.
Proof.
  induction node as [name a body returns IH|name a body returns IH
                     |name body IH|value|children IH]
    using stmt_nested_ind; intros self self' Hinv H.
  - rewrite visit_FunctionDef_eq in H. unfold visit_FunctionDef in H.
    apply bind_Ok in H as (self1 & H1 & H2).
    eapply generic_visit_keeps_from; [exact IH| |exact H2].
    destruct (negb _).
    + eapply Inv_function; eassumption.
    + injection H1 as <-. exact Hinv.
  - rewrite visit_AsyncFunctionDef_eq in H.
    eapply generic_visit_keeps_from; eassumption.
  - rewrite visit_ClassDef_eq in H. unfold visit_ClassDef in H.
    apply bind_Ok in H as (self1 & H1 & H2).
    eapply generic_visit_keeps_from; [exact IH| |exact H2].
    eapply record_methods_keeps; [|exact H1]. apply Inv_class. exact Hinv.
  - injection H as <-. exact Hinv.
  - rewrite visit_OtherStmt_eq in H.
    eapply generic_visit_keeps_from; eassumption.
Qed.

Lemma generic_visit_keeps nodes self self' :
  Inv self -> generic_visit has_unparse unparse nodes self = Ok self' ->
  Inv self'.
Proof.
  apply generic_visit_keeps_from.
  apply Forall_forall. intros node _. apply visit_keeps.
Qed.

End VisitorKeeps.

Section RecordsAndNames.

Variable has_unparse : bool.
Variable unparse : expr -> result string.

Lemma records_match_names_kept tree self :
  generic_visit has_unparse unparse tree ASTAnalyzer_init = Ok self ->
  Terms.records_match_names self.
Proof.
  apply (generic_visit_keeps has_unparse unparse Terms.records_match_names).
  - intros name a body returns self0 self' (Hn & Hc & Hm) H.
    unfold record_function in H.
    apply bind_Ok in H as (info & Hinfo & H). injection H as <-.
    apply extract_Ok_fields in Hinfo as (Hname & Hclass & _).
    unfold Terms.records_match_names. simpl.
    rewrite map_app, Hn. simpl. rewrite Hname.
    split; [reflexivity|]. split; [|exact Hm].
    apply Forall_app. split; [exact Hc|].
    constructor; [exact Hclass | constructor].
  - intros class_name item self0 self' (Hn & Hc & Hm) H.
    destruct item; simpl in H;
      try (injection H as <-; repeat split; assumption).
    apply bind_Ok in H as (info & Hinfo & H). injection H as <-.
    apply extract_Ok_fields in Hinfo as (Hname & Hclass & _).
    unfold Terms.records_match_names. simpl.
    split; [exact Hn|]. split; [exact Hc|].
    rewrite !map_app, Hm. simpl.
    unfold Frontend.expander_label. rewrite Hclass, Hname. reflexivity.
  - intros name self0 H. exact H.
  - repeat split. constructor.
Qed.

Lemma counters_count_flags_kept tree self :
  generic_visit has_unparse unparse tree ASTAnalyzer_init = Ok self ->
  Terms.counters_count_flags self.
Proof.
  apply (generic_visit_keeps has_unparse unparse Terms.counters_count_flags).
  - intros name a body returns self0 self' (H1 & H2 & H3 & H4) H.
    unfold record_function in H.
    apply bind_Ok in H as (info & _ & H). injection H as <-.
    unfold Terms.counters_count_flags, Frontend.missing. simpl.
    rewrite !List.filter_app, !length_app. simpl.
    unfold Frontend.missing in H2.
    destruct (fi_has_docstring info); simpl; repeat split;
      try assumption; lia.
  - intros class_name item self0 self' (H1 & H2 & H3 & H4) H.
    destruct item; simpl in H;
      try (injection H as <-; repeat split; assumption).
    apply bind_Ok in H as (info & _ & H). injection H as <-.
    unfold Terms.counters_count_flags, Frontend.missing. simpl.
    rewrite !List.filter_app, !length_app. simpl.
    unfold Frontend.missing in H4.
    destruct (fi_has_docstring info); simpl; repeat split;
      try assumption; lia.
  - intros name self0 H. exact H.
  - repeat split.
Qed.

End RecordsAndNames.

(** ** Classes, in the order of the visit *)

Section ClassListing.

Variable has_unparse : bool.
Variable unparse : expr -> result string.

Lemma record_function_classes name a body returns self self' :
  record_function has_unparse unparse name a body returns self = Ok self' ->
  classes self' = classes self.
Proof.
  unfold record_function. intros H.
  apply bind_Ok in H as (info & _ & H). injection H as <-. reflexivity.
Qed.

Lemma record_methods_classes class_name body :
  forall self self',
    record_methods has_unparse unparse class_name body self = Ok self' ->
    classes self' = classes self.
Proof.
  induction body as [|item body IH]; simpl; intros self self' H.
  - injection H as <-. reflexivity.
  - apply bind_Ok in H as (self1 & H1 & H2).
    rewrite (IH _ _ H2).
    destruct item; simpl in H1; try (injection H1 as <-; reflexivity).
    apply bind_Ok in H1 as (info & _ & H1). injection H1 as <-. reflexivity.
Qed.

Lemma generic_visit_classes_from nodes :
  Forall (fun node => forall self self',
              visit has_unparse unparse node self = Ok self' ->
              classes self' = classes self ++ Terms.listed_classes node)
         nodes ->
  forall self self',
    generic_visit has_unparse unparse nodes self = Ok self' ->
    classes self' = classes self ++ flat_map Terms.listed_classes nodes.
Proof.
  induction 1 as [|node nodes Hnode _ IH]; simpl; intros self self' H.
  - injection H as <-. rewrite app_nil_r. reflexivity.
  - apply bind_Ok in H as (self1 & H1 & H2).
    rewrite (IH _ _ H2), (Hnode _ _ H1), <- app_assoc. reflexivity.
Qed.

Lemma visit_classes node :
  forall self self',
    visit has_unparse unparse node self = Ok self' ->
    classes self' = classes self ++ Terms.listed_classes node.
Proof.
  induction node as [name a body returns IH|name a body returns IH
                     |name body IH|value|children IH]
    using stmt_nested_ind; intros self self' H.
  - rewrite visit_FunctionDef_eq in H. unfold visit_FunctionDef in H.
    apply bind_Ok in H as (self1 & H1 & H2).
    rewrite (generic_visit_classes_from body IH _ _ H2).
    cbn [Terms.listed_classes]. f_equal.
    destruct (negb _).
    + exact (record_function_classes _ _ _ _ _ _ H1).
    + injection H1 as <-. reflexivity.
  - rewrite visit_AsyncFunctionDef_eq in H.
    exact (generic_visit_classes_from body IH _ _ H).
  - rewrite visit_ClassDef_eq in H. unfold visit_ClassDef in H.
    apply bind_Ok in H as (self1 & H1 & H2).
    rewrite (generic_visit_classes_from body IH _ _ H2).
    rewrite (record_methods_classes _ _ _ _ H1). simpl.
    rewrite <- app_assoc. reflexivity.
  - injection H as <-. simpl. rewrite app_nil_r. reflexivity.
  - rewrite visit_OtherStmt_eq in H.
    exact (generic_visit_classes_from children IH _ _ H).
Qed.

Lemma visit_tree_classes tree self :
  generic_visit has_unparse unparse tree ASTAnalyzer_init = Ok self ->
  classes self = flat_map Terms.listed_classes tree.
Proof.
  intros H. apply generic_visit_classes_from in H; [exact H|].
  apply Forall_forall. intros node _. apply visit_classes.
Qed.

End ClassListing.

(** ** What a report holds *)

(** X1.  In every report the three name lists are read off the tree by
    fixed rules: the classes are all class definitions in visit order; the
    functions are all [def] statements, wherever they stand (top level,
    class body, inside another function), that have no class definition
    below them; the methods are the [def] statements directly in a class
    body, qualified by the class name.  An [async def] is in none of the
    lists. *)
Theorem X1_name_lists_of_report :
  forall (has_unparse : bool) (unparse : expr -> result string)
         (generate_tokens : string -> list token * bool)
         (ast_parse : string -> option (list stmt))
         (source_code : string) (r : Report),
    analyze_python_code has_unparse unparse generate_tokens ast_parse source_code
    = Ok r ->
    exists tree,
      ast_parse source_code = Some tree
      /\ r_classes r = flat_map Terms.listed_classes tree
      /\ r_functions r = flat_map Spec.listed_functions tree
      /\ r_methods r = flat_map Spec.listed_methods tree.
Proof.
  intros has_unparse unparse generate_tokens ast_parse source_code r H.
  apply analyze_Ok_inv in H as (tree & analyzer & Hparse & Hvisit & ->).
  exists tree. split; [exact Hparse|]. simpl.
  split; [exact (visit_tree_classes _ _ _ _ Hvisit)|].
  exact (visit_tree_lists _ _ _ _ Hvisit).
Qed.

Lemma X1_name_lists_of_report_witness :
  exists r,
    analyze_python_code true Examples.unparse_text Samples.tokenize
                        Samples.parse Samples.src_method_and_function = Ok r
    /\ exists tree,
      Samples.parse Samples.src_method_and_function = Some tree
      /\ r_classes r = flat_map Terms.listed_classes tree
      /\ r_functions r = flat_map Spec.listed_functions tree
      /\ r_methods r = flat_map Spec.listed_methods tree.
Proof.
  eexists. split; [reflexivity|].
  apply (X1_name_lists_of_report true Examples.unparse_text Samples.tokenize
           Samples.parse Samples.src_method_and_function).
  reflexivity.
Defined.

(** X2.  In every report the detail records follow the name lists entry by
    entry: the i-th function record carries the i-th function name and no
    class name, and the i-th method record carries a class name, so that the
    title the display builds for it (class name, dot, name) is defined and
    is the i-th entry of the method list. *)
Theorem X2_records_follow_name_lists :
  forall (has_unparse : bool) (unparse : expr -> result string)
         (generate_tokens : string -> list token * bool)
         (ast_parse : string -> option (list stmt))
         (source_code : string) (r : Report),
    analyze_python_code has_unparse unparse generate_tokens ast_parse source_code
    = Ok r ->
    map (Frontend.expander_label false) (r_function_details r)
    = map Some (r_functions r)
    /\ Forall (fun f => fi_class_name f = None) (r_function_details r)
    /\ map (Frontend.expander_label true) (r_method_details r)
       = map Some (r_methods r).
Proof.
  intros has_unparse unparse generate_tokens ast_parse source_code r H.
  apply analyze_Ok_inv in H as (tree & analyzer & _ & Hvisit & ->).
  apply records_match_names_kept in Hvisit as (Hn & Hc & Hm). simpl.
  split; [|split; assumption].
  rewrite <- Hn, map_map. reflexivity.
Qed.

Lemma X2_records_follow_name_lists_witness :
  exists r,
    analyze_python_code true Examples.unparse_text Samples.tokenize
                        Samples.parse Samples.src_method_and_function = Ok r
    /\ map (Frontend.expander_label false) (r_function_details r)
       = map Some (r_functions r)
    /\ Forall (fun f => fi_class_name f = None) (r_function_details r)
    /\ map (Frontend.expander_label true) (r_method_details r)
       = map Some (r_methods r).
Proof.
  eexists. split; [reflexivity|].
  apply (X2_records_follow_name_lists true Examples.unparse_text
           Samples.tokenize Samples.parse Samples.src_method_and_function).
  reflexivity.
Defined.

(** X3.  The totals of a report agree with its lists and with each other:
    the three totals are the lengths of the name lists, which are also the
    numbers of detail records; with-docstring and without-docstring counts
    add up to the total, for functions, for methods and overall; and the
    comment total is the sum of its two parts. *)
Theorem X3_report_totals :
  forall (has_unparse : bool) (unparse : expr -> result string)
         (generate_tokens : string -> list token * bool)
         (ast_parse : string -> option (list stmt))
         (source_code : string) (r : Report),
    analyze_python_code has_unparse unparse generate_tokens ast_parse source_code
    = Ok r ->
    let c := r_counts r in
    total_classes c = length (r_classes r)
    /\ total_functions c = length (r_functions r)
    /\ total_functions c = length (r_function_details r)
    /\ total_methods c = length (r_methods r)
    /\ total_methods c = length (r_method_details r)
    /\ r_functions_with_docstrings c + r_functions_without_docstrings c
       = total_functions c
    /\ r_methods_with_docstrings c + r_methods_without_docstrings c
       = total_methods c
    /\ total_with_docstrings c + total_without_docstrings c
       = total_functions c + total_methods c
    /\ total_comments c = single_line_comments c + multi_line_comments c.
Proof.
  intros has_unparse unparse generate_tokens ast_parse source_code r H.
  apply analyze_Ok_inv in H as (tree & analyzer & _ & Hvisit & ->).
  pose proof (records_match_names_kept _ _ _ _ Hvisit) as (Hn & _ & Hm).
  pose proof (visit_tree_counters _ _ _ _ Hvisit) as [Hf Hmc].
  assert (length (functions analyzer) = length (function_details analyzer))
    as Hlf by (rewrite <- Hn; apply length_map).
  assert (length (methods analyzer) = length (method_details analyzer))
    as Hlm.
  { rewrite <- (length_map Some (methods analyzer)), <- Hm. apply length_map. }
  simpl. rewrite count_all_comments_sums. simpl.
  repeat split; lia.
Qed.

Lemma X3_report_totals_witness :
  exists r,
    analyze_python_code true Examples.unparse_text Samples.tokenize
                        Samples.parse Samples.src_method_and_function = Ok r
    /\ total_functions (r_counts r) = 2
    /\ total_with_docstrings (r_counts r)
       + total_without_docstrings (r_counts r)
       = total_functions (r_counts r) + total_methods (r_counts r).
Proof.
  eexists. split; [reflexivity|]. split; [reflexivity|].
  apply (X3_report_totals true Examples.unparse_text Samples.tokenize
           Samples.parse Samples.src_method_and_function).
  reflexivity.
Defined.

(** X4.  The four docstring counters of a report are recounts of its
    records: the display's lists of functions and of methods that miss a
    docstring have as many entries as the two without-docstring counters
    say, and the with-docstring counters are the numbers of flagged
    records. *)
Theorem X4_counters_recount_records :
  forall (has_unparse : bool) (unparse : expr -> result string)
         (generate_tokens : string -> list token * bool)
         (ast_parse : string -> option (list stmt))
         (source_code : string) (r : Report),
    analyze_python_code has_unparse unparse generate_tokens ast_parse source_code
    = Ok r ->
    length (Frontend.missing (r_function_details r))
    = r_functions_without_docstrings (r_counts r)
    /\ length (Frontend.missing (r_method_details r))
       = r_methods_without_docstrings (r_counts r)
    /\ length (List.filter fi_has_docstring (r_function_details r))
       = r_functions_with_docstrings (r_counts r)
    /\ length (List.filter fi_has_docstring (r_method_details r))
       = r_methods_with_docstrings (r_counts r).
Proof.
  intros has_unparse unparse generate_tokens ast_parse source_code r H.
  apply analyze_Ok_inv in H as (tree & analyzer & _ & Hvisit & ->).
  apply counters_count_flags_kept in Hvisit as (H1 & H2 & H3 & H4).
  simpl. repeat split; symmetry; assumption.
Qed.

Lemma X4_counters_recount_records_witness :
  exists r,
    analyze_python_code true Examples.unparse_text Samples.tokenize
                        Samples.parse Samples.src_method_and_function = Ok r
    /\ map fi_name (Frontend.missing (r_function_details r)) = ["g"%string]
    /\ length (Frontend.missing (r_function_details r))
       = r_functions_without_docstrings (r_counts r).
Proof.
  eexists. split; [reflexivity|]. split; [reflexivity|].
  apply (X4_counters_recount_records true Examples.unparse_text
           Samples.tokenize Samples.parse Samples.src_method_and_function).
  reflexivity.
Defined.

(** X5.  The coverage of a report with at most [2 ^ 53] callables is 100
    exactly when it has at least one callable and no callable without a
    docstring. *)
Theorem X5_full_coverage :
  forall (has_unparse : bool) (unparse : expr -> result string)
         (generate_tokens : string -> list token * bool)
         (ast_parse : string -> option (list stmt))
         (source_code : string) (r : Report),
    analyze_python_code has_unparse unparse generate_tokens ast_parse source_code
    = Ok r ->
    (Z.of_nat (total_with_docstrings (r_counts r)
               + total_without_docstrings (r_counts r)) <= 2 ^ 53)%Z ->
    (docstring_coverage (r_counts r) == 100)%Q
    <-> 0 < total_with_docstrings (r_counts r)
        /\ total_without_docstrings (r_counts r) = 0.
Proof.
  intros has_unparse unparse generate_tokens ast_parse source_code r H.
  apply analyze_Ok_inv in H as (tree & analyzer & _ & Hvisit & ->).
  apply visit_tree_counters in Hvisit as [Hf Hm].
  cbn [build_report r_counts total_with_docstrings total_without_docstrings
       docstring_coverage].
  intros Hbound.
  rewrite coverage_full; [lia | lia |].
  replace (length (function_details analyzer) + length (method_details analyzer))
    with (functions_with_docstrings analyzer + methods_with_docstrings analyzer
          + (functions_without_docstrings analyzer
             + methods_without_docstrings analyzer)) by lia.
  exact Hbound.
Qed.

Lemma X5_full_coverage_witness :
  exists r,
    analyze_python_code true Examples.unparse_text Examples.tokenize
                        Examples.parse Examples.src_undocumented = Ok r
    /\ (Z.of_nat (total_with_docstrings (r_counts r)
                  + total_without_docstrings (r_counts r)) <= 2 ^ 53)%Z
    /\ ((docstring_coverage (r_counts r) == 100)%Q
        <-> 0 < total_with_docstrings (r_counts r)
            /\ total_without_docstrings (r_counts r) = 0).
Proof.
  eexists. split; [vm_compute; reflexivity|].
  assert (Z.of_nat (0 + 1) <= 2 ^ 53)%Z as Hbound by (vm_compute; discriminate).
  split; [exact Hbound|].
  match goal with
  | |- (docstring_coverage (r_counts ?r) == 100)%Q <-> _ =>
      apply (X5_full_coverage true Examples.unparse_text Examples.tokenize
               Examples.parse Examples.src_undocumented r);
        [vm_compute; reflexivity | exact Hbound]
  end.
Defined.

(** ** The parameter entries of a record *)

Lemma mark_default_length (i : Z) (l l' : list ArgInfo) :
  mark_default i l = Ok l' -> length l' = length l.
Proof.
  intros H. apply mark_default_shape in H.
  rewrite <- (length_map (with_default false) l'), H. apply length_map.
Qed.

Lemma mark_default_returns (i : Z) (l : list ArgInfo) :
  (- Z.of_nat (length l) <= i)%Z -> exists l', mark_default i l = Ok l'.
Proof.
  intros Hi. unfold mark_default. cbv zeta.
  destruct (Z.ltb_spec i (Z.of_nat (length l))); [|eexists; reflexivity].
  destruct (Z.ltb_spec i 0).
  - destruct (Z.ltb_spec (i + Z.of_nat (length l)) 0); [lia|].
    eexists; reflexivity.
  - destruct (Z.ltb_spec i 0); [lia|]. eexists; reflexivity.
Qed.

Lemma mark_default_raises (i : Z) (l : list ArgInfo) :
  (i + Z.of_nat (length l) < 0)%Z -> mark_default i l = Raise IndexError.
Proof.
  intros Hi. unfold mark_default. cbv zeta.
  destruct (Z.ltb_spec i (Z.of_nat (length l))); [|lia].
  destruct (Z.ltb_spec i 0); [|lia].
  destruct (Z.ltb_spec (i + Z.of_nat (length l)) 0); [reflexivity | lia].
Qed.

Lemma sweep_defaults_returns (ds : list expr) :
  forall (i : Z) (l : list ArgInfo),
    (- Z.of_nat (length l) <= i)%Z -> exists l', sweep_defaults i ds l = Ok l'.
Proof.
  induction ds as [|d ds IH]; simpl; intros i l Hi.
  - eexists; reflexivity.
  - destruct (mark_default_returns i l Hi) as (l1 & H1). rewrite H1. simpl.
    apply IH. rewrite (mark_default_length _ _ _ H1). lia.
Qed.

(** The sweep raises exactly when its first index lies below [-len]. *)
Lemma apply_defaults_outcome (a : arguments) (l : list ArgInfo) :
  (length (args a) + length l < length (defaults a) ->
   apply_defaults a l = Raise IndexError)
  /\ (length (defaults a) <= length (args a) + length l ->
      exists l', apply_defaults a l = Ok l').
Proof.
  unfold apply_defaults. destruct (defaults a) as [|d ds]; simpl.
  - split; [lia | eexists; reflexivity].
  - split; intros H.
    + rewrite mark_default_raises by lia. reflexivity.
    + apply (sweep_defaults_returns (d :: ds)). simpl. lia.
Qed.

Lemma shape_Forall (P : ArgInfo -> Prop) (l l' : list ArgInfo) :
  (forall b x, P (with_default b x) <-> P x) ->
  map (with_default false) l' = map (with_default false) l ->
  Forall P l -> Forall P l'.
Proof.
  intros HP. revert l'.
  induction l as [|x l IH]; intros [|x' l'] H HF; try discriminate H.
  - constructor.
  - rewrite !map_cons in H.
    remember (with_default false x) as y eqn:Ey.
    remember (with_default false x') as y' eqn:Ey'.
    injection H as Hx Hl. subst y y'.
    inversion HF as [|? ? Px Pl]; subst.
    constructor; [|apply IH; assumption].
    apply (HP false). rewrite Hx. apply (HP false). exact Px.
Qed.

Section Entries.

Variable has_unparse : bool.
Variable unparse : expr -> result string.

Local Abbreviation collect := (collect_args has_unparse unparse).

Lemma arg_type_not_empty (x : arg) :
  arg_type_or_Any has_unparse unparse x <> EmptyString.
Proof.
  unfold arg_type_or_Any. destruct (annotation x) as [e|]; [|discriminate].
  cbv zeta. destruct (annotation_text has_unparse unparse e) eqn:E; simpl;
    discriminate.
Qed.

(** X6.  The entries of a returned record are, in this order, one per
    parameter of [args], one per keyword-only parameter, then the [*]
    parameter and the [**] parameter where declared, each under its own
    name; the variadic-positional marker is set on the [*] entry alone,
    the variadic-keyword marker on the [**] entry alone.  Positional-only
    parameters have no entry. *)
Theorem X6_entries_names_and_markers :
  forall name a body returns class_name info,
    _extract_function_info has_unparse unparse name a body returns class_name
    = Ok info ->
    map ai_name (fi_args info)
    = map arg_name (args a) ++ map arg_name (kwonlyargs a)
      ++ map arg_name (option_list (vararg a))
      ++ map arg_name (option_list (kwarg a))
    /\ map (fun p => get_flag (ai_vararg p)) (fi_args info)
       = map (fun _ => false) (args a) ++ map (fun _ => false) (kwonlyargs a)
         ++ map (fun _ => true) (option_list (vararg a))
         ++ map (fun _ => false) (option_list (kwarg a))
    /\ map (fun p => get_flag (ai_kwargs p)) (fi_args info)
       = map (fun _ => false) (args a) ++ map (fun _ => false) (kwonlyargs a)
         ++ map (fun _ => false) (option_list (vararg a))
         ++ map (fun _ => true) (option_list (kwarg a)).
Proof.
  intros name a body returns class_name info H.
  exact (extract_args_listing has_unparse unparse _ _ _ _ _ _ H).
Qed.

(** X7.  When a definition has no more default expressions than entries in
    [args], the default flag of a returned record is set on the last K
    entries of [args] (K the number of defaults) and on every keyword-only
    entry, and on no other entry. *)
Theorem X7_default_flags_when_defaults_fit :
  forall name a body returns class_name info,
    length (defaults a) <= length (args a) ->
    _extract_function_info has_unparse unparse name a body returns class_name
    = Ok info ->
    forall k p,
      fi_args info !! k = Some p ->
      ai_default p = true
      <-> length (args a) - length (defaults a) <= k
          < length (args a) + length (kwonlyargs a).
Proof.
  intros name a body returns class_name info HK H.
  exact (extract_default_flags has_unparse unparse _ _ _ _ _ _ HK H).
Qed.

(** X8.  The extraction fails in two ways only.  It raises [IndexError]
    exactly when the defaults outnumber the entries of [args] by more than
    the length of the entry list (the sweep then starts below [-len]);
    otherwise it fails iff rendering the return annotation fails, with that
    exception, and else returns a record with the rendered return type.
    What [ast.unparse] does on a parameter annotation never makes it
    fail. *)
Theorem X8_extraction_outcome :
  forall name a body returns class_name,
    let n := length (args a) + length (kwonlyargs a)
             + length (option_list (vararg a))
             + length (option_list (kwarg a)) in
    (length (args a) + n < length (defaults a) ->
     _extract_function_info has_unparse unparse name a body returns
                            class_name = Raise IndexError)
    /\ (length (defaults a) <= length (args a) + n ->
        forall e,
          return_type_of has_unparse unparse returns = Raise e ->
          _extract_function_info has_unparse unparse name a body returns
                                 class_name = Raise e)
    /\ (length (defaults a) <= length (args a) + n ->
        forall rt,
          return_type_of has_unparse unparse returns = Ok rt ->
          exists info,
            _extract_function_info has_unparse unparse name a body returns
                                   class_name = Ok info
            /\ fi_return_type info = rt).
Proof.
  intros name a body returns class_name n.
  pose proof (apply_defaults_outcome a (collect a)) as [Hraise Hok].
  rewrite collect_args_length in Hraise, Hok. fold n in Hraise, Hok.
  unfold _extract_function_info. split; [|split].
  - intros H. rewrite (Hraise H). reflexivity.
  - intros H e He. destruct (Hok H) as (l' & ->). simpl. rewrite He.
    reflexivity.
  - intros H rt Hrt. destruct (Hok H) as (l' & ->). simpl. rewrite Hrt.
    simpl. eexists. split; reflexivity.
Qed.

(** X9.  In a returned record no entry has an empty type; the entries of
    the [*] and [**] parameters have the type [Any] whatever their
    annotation; and the other entries have, in order, the type computed
    from the annotation of their parameter. *)
Theorem X9_entry_types :
  forall name a body returns class_name info,
    _extract_function_info has_unparse unparse name a body returns class_name
    = Ok info ->
    Forall (fun p => ai_type p <> EmptyString) (fi_args info)
    /\ map ai_type (fi_args info)
       = map (arg_type_or_Any has_unparse unparse) (args a) ++ map (arg_type_or_Any has_unparse unparse) (kwonlyargs a)
         ++ map (fun _ => "Any"%string) (option_list (vararg a))
         ++ map (fun _ => "Any"%string) (option_list (kwarg a)).
Proof.
  intros name a body returns class_name info H.
  apply extract_Ok_fields in H as (_ & _ & _ & _ & H & _).
  apply apply_defaults_shape in H.
  assert (map ai_type (collect a)
          = map (arg_type_or_Any has_unparse unparse) (args a) ++ map (arg_type_or_Any has_unparse unparse) (kwonlyargs a)
            ++ map (fun _ => "Any"%string) (option_list (vararg a))
            ++ map (fun _ => "Any"%string) (option_list (kwarg a))) as Hty.
  { rewrite collect_args_eq, !map_app, !map_map. reflexivity. }
  split.
  - apply (shape_Forall (fun p => ai_type p <> EmptyString) (collect a) _
                        (fun _ x => iff_refl (ai_type x <> EmptyString)) H).
    apply Forall_forall. intros p Hp.
    assert (In (ai_type p) (map ai_type (collect a))) as Hin
        by (apply in_map; apply list_elem_of_In; exact Hp).
    rewrite Hty in Hin.
    rewrite !in_app_iff, !in_map_iff in Hin.
    destruct Hin as [(x & <- & _)|[(x & <- & _)|[(x & <- & _)|(x & <- & _)]]];
      try apply arg_type_not_empty; discriminate.
  - rewrite (shape_projection ai_type _ _ (fun _ _ => eq_refl) H). exact Hty.
Qed.

End Entries.

Lemma X6_entries_names_and_markers_witness :
  exists info,
    _extract_function_info true Examples.unparse_text "f" annotated_signature
                           [pass] (Some (Name "int")) None = Ok info
    /\ map ai_name (fi_args info)
       = ["a"%string; "b"%string; "args"%string; "kw"%string]
    /\ map ai_name (fi_args info)
       = map arg_name (args annotated_signature)
         ++ map arg_name (kwonlyargs annotated_signature)
         ++ map arg_name (option_list (vararg annotated_signature))
         ++ map arg_name (option_list (kwarg annotated_signature)).
Proof.
  eexists. split; [reflexivity|]. split; [reflexivity|].
  apply (X6_entries_names_and_markers true Examples.unparse_text "f"
           annotated_signature [pass] (Some (Name "int")) None).
  reflexivity.
Defined.

Lemma X7_default_flags_when_defaults_fit_witness :
  length (defaults Examples.scenario_A) <= length (args Examples.scenario_A)
  /\ exists info,
    _extract_function_info true Examples.unparse_text "f" Examples.scenario_A
                           [pass] None None = Ok info
    /\ map ai_default (fi_args info) = [false; true; false; false]
    /\ forall k p,
        fi_args info !! k = Some p ->
        ai_default p = true
        <-> length (args Examples.scenario_A)
            - length (defaults Examples.scenario_A) <= k
            < length (args Examples.scenario_A)
              + length (kwonlyargs Examples.scenario_A).
Proof.
  split; [simpl; lia|].
  eexists. split; [reflexivity|]. split; [reflexivity|].
  apply (X7_default_flags_when_defaults_fit true Examples.unparse_text "f"
           Examples.scenario_A [pass] None None); [simpl; lia | reflexivity].
Defined.

Lemma X8_extraction_outcome_witness :
  (length (args Examples.posonly_with_default) + 0
   < length (defaults Examples.posonly_with_default)
   /\ _extract_function_info true Examples.unparse_text "f"
                             Examples.posonly_with_default [pass] None None
      = Raise IndexError)
  /\ (length (defaults annotated_signature)
      <= length (args annotated_signature) + 4
      /\ return_type_of true Examples.unparse_text (Some (Name "int"))
         = Ok (Some "int"%string)
      /\ exists info,
        _extract_function_info true Examples.unparse_text "f"
                               annotated_signature [pass] (Some (Name "int"))
                               None = Ok info
        /\ fi_return_type info = Some "int"%string).
Proof.
  split.
  - split; [simpl; lia|].
    apply (proj1 (X8_extraction_outcome true Examples.unparse_text "f"
                    Examples.posonly_with_default [pass] None None)).
    simpl. lia.
  - split; [simpl; lia|]. split; [reflexivity|].
    apply (proj2 (proj2 (X8_extraction_outcome
                           true Examples.unparse_text "f" annotated_signature
                           [pass] (Some (Name "int")) None)));
      [simpl; lia | reflexivity].
Defined.

Lemma X9_entry_types_witness :
  exists info,
    _extract_function_info true Examples.unparse_text "f" annotated_signature
                           [pass] (Some (Name "int")) None = Ok info
    /\ map ai_type (fi_args info)
       = ["int"%string; "bool"%string; "Any"%string; "Any"%string]
    /\ Forall (fun p => ai_type p <> EmptyString) (fi_args info).
Proof.
  eexists. split; [reflexivity|]. split; [reflexivity|].
  apply (X9_entry_types true Examples.unparse_text "f" annotated_signature
           [pass] (Some (Name "int")) None).
  reflexivity.
Defined.

(** ** More on the comment statistics *)

Lemma filters_disjoint_length {A : Type} (p q : A -> bool) (l : list A) :
  (forall x, p x = true -> q x = false) ->
  length (List.filter p l) + length (List.filter q l) <= length l.
Proof.
  intros Hpq. induction l as [|x l IH]; simpl; [lia|].
  destruct (p x) eqn:Hp.
  - rewrite (Hpq x Hp). simpl. lia.
  - destruct (q x); simpl; lia.
Qed.

(** X12.  When the tokenizer fails after having yielded tokens, the line
    scan starts from the counts of the token loop, not from zero: each of
    the four numbers is the number the yielded tokens alone would give plus
    the number the line scan alone would give, so that a comment or a
    literal the tokenizer had already yielded is counted a second time. *)
Theorem X12_scan_adds_to_token_counts :
  forall (generate_tokens tokens_only scan_only : string -> list token * bool)
         (source_code : string) (tokens : list token),
    generate_tokens source_code = (tokens, true) ->
    tokens_only source_code = (tokens, false) ->
    scan_only source_code = ([], true) ->
    let both := count_all_comments generate_tokens source_code in
    let t := count_all_comments tokens_only source_code in
    let s := count_all_comments scan_only source_code in
    cc_single_line_comments both
    = cc_single_line_comments t + cc_single_line_comments s
    /\ cc_multi_line_comments both
       = cc_multi_line_comments t + cc_multi_line_comments s
    /\ cc_docstring_lines both = cc_docstring_lines t + cc_docstring_lines s
    /\ cc_total_comments both = cc_total_comments t + cc_total_comments s.
Proof.
  intros generate_tokens tokens_only scan_only source_code tokens Hb Ht Hs.
  cbv zeta. rewrite !count_all_comments_sums, Hb, Ht, Hs. simpl.
  unfold Spec.lines_of. simpl. repeat split; lia.
Qed.

Lemma X12_scan_adds_to_token_counts_witness :
  Samples.tokenize Samples.src_unterminated
  = ([mk_token COMMENT "# note"; mk_token OTHER_TOKEN Py.nl], true)
  /\ cc_single_line_comments
       (count_all_comments Samples.tokenize Samples.src_unterminated) = 2
  /\ cc_total_comments
       (count_all_comments Samples.tokenize Samples.src_unterminated)
     = cc_total_comments
         (count_all_comments
            (fun _ => ([mk_token COMMENT "# note"; mk_token OTHER_TOKEN Py.nl],
                       false))
            Samples.src_unterminated)
       + cc_total_comments
           (count_all_comments (fun _ => ([], true)) Samples.src_unterminated).
Proof.
  split; [reflexivity|]. split; [reflexivity|].
  apply (X12_scan_adds_to_token_counts
           Samples.tokenize
           (fun _ => ([mk_token COMMENT "# note"; mk_token OTHER_TOKEN Py.nl],
                      false))
           (fun _ => ([], true))
           Samples.src_unterminated
           [mk_token COMMENT "# note"; mk_token OTHER_TOKEN Py.nl]);
    reflexivity.
Defined.

(** X13.  When the tokenizer fails before yielding anything, every line of
    the text is counted at most once, as a comment or as a literal line, so
    that the total is at most the number of lines; and the
    documentation-like count is zero. *)
Theorem X13_scan_counts_each_line_once :
  forall (generate_tokens : string -> list token * bool)
         (source_code : string),
    generate_tokens source_code = ([], true) ->
    let counts := count_all_comments generate_tokens source_code in
    cc_total_comments counts <= length (Py.splitlines source_code)
    /\ cc_docstring_lines counts = 0.
Proof.
  intros generate_tokens source_code H. cbv zeta.
  rewrite count_all_comments_sums, H. simpl. split; [|reflexivity].
  apply filters_disjoint_length. intros line Hc.
  unfold Spec.literal_line. rewrite Hc. reflexivity.
Qed.

Lemma X13_scan_counts_each_line_once_witness :
  (fun _ : string => (@nil token, true)) Samples.src_unterminated = ([], true)
  /\ cc_total_comments
       (count_all_comments (fun _ => ([], true)) Samples.src_unterminated) = 2
  /\ length (Py.splitlines Samples.src_unterminated) = 3
  /\ cc_total_comments
       (count_all_comments (fun _ => ([], true)) Samples.src_unterminated)
     <= length (Py.splitlines Samples.src_unterminated)
  /\ cc_docstring_lines
       (count_all_comments (fun _ => ([], true)) Samples.src_unterminated) = 0.
Proof.
  split; [reflexivity|]. split; [reflexivity|]. split; [reflexivity|].
  apply (X13_scan_counts_each_line_once (fun _ => ([], true))
           Samples.src_unterminated).
  reflexivity.
Defined.

(** Stripping, and whitespace around a text. *)

Lemma lstrip_blank_app (pad s : string) :
  Terms.blank pad = true -> Py.lstrip (pad ++ s) = Py.lstrip s.
Proof.
  induction pad as [|c pad IH]; simpl; intros H; [reflexivity|].
  apply andb_true_iff in H as [Hc Hpad]. rewrite Hc. apply IH. exact Hpad.
Qed.

Lemma rstrip_blank (pad : string) :
  Terms.blank pad = true -> Py.rstrip pad = EmptyString.
Proof.
  induction pad as [|c pad IH]; simpl; intros H; [reflexivity|].
  apply andb_true_iff in H as [Hc Hpad]. rewrite (IH Hpad), Hc. reflexivity.
Qed.

Lemma rstrip_app_blank (s pad : string) :
  Terms.blank pad = true -> Py.rstrip (s ++ pad) = Py.rstrip s.
Proof.
  intros H. induction s as [|c s IH]; simpl.
  - apply rstrip_blank. exact H.
  - rewrite IH. reflexivity.
Qed.

Lemma rstrip_blank_app (pad s : string) :
  Terms.blank pad = true ->
  Py.rstrip (pad ++ s)
  = match Py.rstrip s with
    | EmptyString => EmptyString
    | String x y => (pad ++ String x y)%string
    end.
Proof.
  induction pad as [|c pad IH]; simpl; intros H.
  - destruct (Py.rstrip s); reflexivity.
  - apply andb_true_iff in H as [Hc Hpad]. rewrite (IH Hpad).
    destruct (Py.rstrip s) as [|x y]; [rewrite Hc; reflexivity|].
    destruct pad; reflexivity.
Qed.

Lemma strip_blank_around (pad s pad' : string) :
  Terms.blank pad = true -> Terms.blank pad' = true ->
  Py.strip (pad ++ s ++ pad') = Py.strip s.
Proof.
  intros H H'. unfold Py.strip.
  rewrite (rstrip_blank_app pad _ H), (rstrip_app_blank s pad' H').
  destruct (Py.rstrip s) as [|x y]; [reflexivity|].
  apply lstrip_blank_app. exact H.
Qed.

(** X14.  The line scan does not look at the whitespace around a line:
    indenting a line, or adding blanks at its end, changes nothing in how
    the line is counted. *)
Theorem X14_scan_ignores_surrounding_whitespace :
  forall (c : counters) (pad line pad' : string),
    Terms.blank pad = true -> Terms.blank pad' = true ->
    count_line c (pad ++ line ++ pad') = count_line c line.
Proof.
  intros c pad line pad' H H'. unfold count_line.
  rewrite (strip_blank_around pad line pad' H H'). reflexivity.
Qed.

Lemma X14_scan_ignores_surrounding_whitespace_witness :
  Terms.blank "    " = true /\ Terms.blank "  " = true
  /\ count_line (mk_counters 0 0 0) ("    " ++ "# note" ++ "  ")
     = count_line (mk_counters 0 0 0) "# note".
Proof.
  split; [reflexivity|]. split; [reflexivity|].
  apply (X14_scan_ignores_surrounding_whitespace
           (mk_counters 0 0 0) "    " "# note" "  "); reflexivity.
Defined.

Lemma strip_keeps_head (ch : ascii) (rest : string) :
  Py.isspace ch = false ->
  exists rest', Py.strip (String ch rest) = String ch rest'.
Proof.
  intros Hch. unfold Py.strip. simpl.
  destruct (Py.rstrip rest) as [|x y]; rewrite ?Hch; simpl; rewrite Hch;
    eexists; reflexivity.
Qed.

Lemma startswith_other_head (a ch : ascii) (p rest : string) :
  a <> ch -> Py.startswith (String ch rest) (String a p) = false.
Proof.
  intros Hne. unfold Py.startswith.
  change (String.prefix (String a p) (String ch rest))
    with (if ascii_dec a ch then String.prefix p rest else false).
  destruct (ascii_dec a ch); [contradiction | reflexivity].
Qed.

(** X15.  A STRING token whose text begins with a prefix letter, or with
    anything but a quote, is never counted: a raw, byte or formatted
    triple-quoted literal changes none of the counters. *)
Theorem X15_prefixed_literals_not_counted :
  forall (c : counters) (ch : ascii) (rest : string),
    Py.isspace ch = false -> ch <> dquote -> ch <> "'"%char ->
    count_token c (mk_token STRING (String ch rest)) = c.
Proof.
  intros c ch rest Hsp Hd Hs. unfold count_token.
  cbn [tok_type tok_string].
  destruct (strip_keeps_head ch rest Hsp) as (rest' & ->).
  unfold is_triple_quoted, triple_double, triple_single.
  rewrite !startswith_other_head by congruence. reflexivity.
Qed.

Lemma X15_prefixed_literals_not_counted_witness :
  Py.isspace "r" = false /\ "r"%char <> dquote /\ "r"%char <> "'"%char
  /\ count_token (mk_counters 0 0 0)
                 (mk_token STRING (String "r" (triple_double ++ "doc"
                                                 ++ triple_double)))
     = mk_counters 0 0 0.
Proof.
  split; [reflexivity|]. split; [discriminate|]. split; [discriminate|].
  apply (X15_prefixed_literals_not_counted
           (mk_counters 0 0 0) "r"
           (triple_double ++ "doc" ++ triple_double));
    [reflexivity | discriminate | discriminate].
Defined.

Lemma token_lines_line_feeds (t : token) :
  token_lines t = S (Terms.line_feeds (tok_string t)).
Proof.
  unfold token_lines. induction (tok_string t) as [|c s IH]; simpl.
  - reflexivity.
  - destruct (Ascii.eqb c Py.newline); simpl.
    + rewrite IH. reflexivity.
    + destruct (Py.split_nl s); simpl in *; lia.
Qed.

Lemma lines_of_line_feeds (p : token -> bool) (tokens : list token) :
  Spec.lines_of p tokens
  = length (List.filter p tokens)
    + list_sum (map (fun t => Terms.line_feeds (tok_string t))
                    (List.filter p tokens)).
Proof.
  unfold Spec.lines_of.
  induction (List.filter p tokens) as [|t l IH]; simpl; [reflexivity|].
  rewrite IH, token_lines_line_feeds. lia.
Qed.

(** X16.  A counted literal adds one to the multi-line count, plus one for
    every line feed in its text: the count is the number of counted
    literals, plus the line feeds they hold, plus the literal lines of the
    line scan.  The same holds of the documentation-like count, which the
    line scan never feeds. *)
Theorem X16_literal_counts_by_line_feeds :
  forall (generate_tokens : string -> list token * bool) (source_code : string),
    let tokens := (generate_tokens source_code).1 in
    let lines := Spec.scanned_lines (generate_tokens source_code).2 source_code in
    let counts := count_all_comments generate_tokens source_code in
    let feeds p := list_sum (map (fun t => Terms.line_feeds (tok_string t))
                                 (List.filter p tokens)) in
    cc_multi_line_comments counts
    = length (List.filter Spec.is_triple_quoted_literal tokens)
      + feeds Spec.is_triple_quoted_literal
      + length (List.filter Spec.literal_line lines)
    /\ cc_docstring_lines counts
       = length (List.filter Spec.documentation_like tokens)
         + feeds Spec.documentation_like.
Proof.
  intros generate_tokens source_code. cbv zeta.
  rewrite count_all_comments_sums. simpl.
  rewrite !lines_of_line_feeds. split; reflexivity.
Qed.

(** ** The baseline docstring, line by line *)

Lemma one_line_app (s1 s2 : string) :
  Terms.one_line (s1 ++ s2) = Terms.one_line s1 && Terms.one_line s2.
Proof.
  induction s1 as [|c s1 IH]; simpl; [reflexivity|].
  rewrite IH, andb_assoc. reflexivity.
Qed.

Lemma split_one_line (s : string) :
  Terms.one_line s = true -> Py.split_nl s = [s].
Proof.
  induction s as [|c s IH]; simpl; intros H; [reflexivity|].
  apply andb_true_iff in H as [Hc Hs]. apply negb_true_iff in Hc.
  rewrite Hc, (IH Hs). reflexivity.
Qed.

Lemma split_line_then_rest (l rest : string) :
  Terms.one_line l = true ->
  Py.split_nl (l ++ Py.nl ++ rest) = l :: Py.split_nl rest.
Proof.
  induction l as [|c l IH]; simpl; intros H; [reflexivity|].
  apply andb_true_iff in H as [Hc Hl]. apply negb_true_iff in Hc.
  rewrite Hc. simpl in IH. rewrite (IH Hl). reflexivity.
Qed.

Lemma split_join_lines (lines : list string) :
  lines <> [] ->
  Forall (fun l => Terms.one_line l = true) lines ->
  Py.split_nl (Py.join_nl lines) = lines.
Proof.
  induction lines as [|l lines IH]; intros Hne HF; [contradiction|].
  inversion HF as [|? ? Hl Hrest]; subst.
  destruct lines as [|l2 lines].
  - simpl. apply split_one_line. exact Hl.
  - change (Py.join_nl (l :: l2 :: lines))
      with (l ++ Py.nl ++ Py.join_nl (l2 :: lines))%string.
    rewrite (split_line_then_rest _ _ Hl). f_equal.
    apply IH; [discriminate | exact Hrest].
Qed.

Lemma described_line_one_line (p : ArgInfo) :
  Terms.one_line (ai_name p) = true -> Terms.one_line (ai_type p) = true ->
  Terms.one_line (Spec.described_line p) = true.
Proof.
  intros Hn Ht. unfold Spec.described_line.
  destruct (get_flag (ai_vararg p)), (get_flag (ai_kwargs p));
    rewrite !one_line_app, ?Hn, ?Ht; reflexivity.
Qed.

(** X17.  Splitting a baseline docstring at its line feeds gives back the
    lines it was built from, when neither the function name nor the name or
    type of an entry holds a line feed: the name, then for a non-empty
    entry list a blank line, ["Args:"] and one line per entry, then a blank
    line, ["Returns:"] and the placeholder.  It has four lines for no entry
    and six more than entries otherwise. *)
Theorem X17_baseline_docstring_lines :
  forall (func_name : string) (params : list ArgInfo)
         (class_name : option string),
    Terms.one_line func_name = true ->
    Forall (fun p => Terms.one_line (ai_name p) = true
                     /\ Terms.one_line (ai_type p) = true) params ->
    Py.split_nl (_generate_baseline_docstring func_name params class_name)
    = [func_name] ++ Spec.args_section params ++ Spec.returns_section
    /\ length (Py.split_nl
                 (_generate_baseline_docstring func_name params class_name))
       = match params with
         | [] => 4
         | _ => length params + 6
         end.
Proof.
  intros func_name params class_name Hname Hparams.
  rewrite generate_baseline_layout. unfold Spec.baseline_layout.
  assert (Py.split_nl
            (Py.join_nl ([func_name] ++ Spec.args_section params
                           ++ Spec.returns_section))
          = [func_name] ++ Spec.args_section params ++ Spec.returns_section)
    as Hsplit.
  { apply split_join_lines; [discriminate|].
    constructor; [exact Hname|]. apply Forall_app. split.
    - unfold Spec.args_section. destruct params as [|p params];
        [constructor|].
      constructor; [reflexivity|]. constructor; [reflexivity|].
      apply Forall_forall. intros line Hin.
      apply list_elem_of_In, in_map_iff in Hin as (q & <- & Hq).
      apply list_elem_of_In in Hq.
      pose proof (proj1 (Forall_forall _ _) Hparams q Hq) as [Hn Ht].
      apply described_line_one_line; assumption.
    - repeat constructor. }
  rewrite Hsplit. split; [reflexivity|].
  unfold Spec.args_section, Spec.returns_section.
  destruct params as [|p params]; simpl; [reflexivity|].
  rewrite length_app, length_map. simpl. lia.
Qed.

Lemma X17_baseline_docstring_lines_witness :
  Terms.one_line "f" = true
  /\ Forall (fun p => Terms.one_line (ai_name p) = true
                      /\ Terms.one_line (ai_type p) = true)
            [mk_ArgInfo "a" "int" false None None;
             mk_ArgInfo "kw" "Any" false None (Some true)]
  /\ length (Py.split_nl
               (_generate_baseline_docstring
                  "f" [mk_ArgInfo "a" "int" false None None;
                       mk_ArgInfo "kw" "Any" false None (Some true)] None))
     = 8.
Proof.
  assert (Forall (fun p => Terms.one_line (ai_name p) = true
                           /\ Terms.one_line (ai_type p) = true)
                 [mk_ArgInfo "a" "int" false None None;
                  mk_ArgInfo "kw" "Any" false None (Some true)]) as HF.
  { repeat constructor. }
  split; [reflexivity|]. split; [exact HF|].
  apply (X17_baseline_docstring_lines
           "f" [mk_ArgInfo "a" "int" false None None;
                mk_ArgInfo "kw" "Any" false None (Some true)] None
           eq_refl HF).
Defined.

(** ** The [/analyze] route *)

